(** * GameNerd: the two-call chat service

    A shallow embedding of [app/api/openai_service.py] and of the history
    handling of [app/main.py], with the properties of the service's
    specification stated and settled against it.

    Conventions of the embedding.
    - A Python [str] is a [string]; where the code looks inside a string
      (the regular expression, [lower], [in], [startswith]) the string is
      read as its list of characters.  Characters are 8-bit; [lower] acts on
      the code points below 256 as [str.lower] does.
    - An [await]ed call either returns or raises: [outcome].  An [exn] is an
      exception that [except Exception] catches.
    - The functions are embedded twice.  Under their own names they are the
      code without its log lines: what it computes while [print] and
      [traceback.print_exc] write and return.  In [Logged] they are the code
      line by line, with the log stream as a parameter that may raise; there
      a log line outside a [try] lets its exception escape.  The two agree
      when the log stream accepts every line ([LoggedFacts]).
    - [client.chat.completions.create] is the service's one external
      collaborator; it is a parameter [create], a function from the request
      the code builds to the provider's outcome.
    - [json.loads] belongs to Python's standard library; it is a parameter
      [json_loads] of the composer. *)

From Stdlib Require Import Ascii String List Arith Lia Bool QArith DecimalString.
From stdpp Require Import gmap strings list fin_maps.

Local Open Scope list_scope.

(** ** Python values and exceptions *)

(** An exception as the code observes it: [type(e).__name__] and [str(e)]. *)
Record exn := Exn { exn_type : string; exn_str : string }.

Inductive outcome (A : Type) : Type :=
| Returned (a : A)
| Raised (e : exn).
Arguments Returned {A} a.
Arguments Raised {A} e.

#[global] Instance outcome_ret : MRet outcome := fun A a => Returned a.

#[global] Instance outcome_bind : MBind outcome :=
  fun A B (f : A -> outcome B) (m : outcome A) =>
    match m with
    | Returned a => f a
    | Raised e => Raised e
    end.

(** [try: body except Exception as e: handler e]. *)
Definition try_except {A} (body : outcome A) (handler : exn -> outcome A) : outcome A :=
  match body with
  | Returned a => Returned a
  | Raised e => handler e
  end.

(** The values [json.loads] produces, which is what [ui_data["data"]] holds.
    A [dict] keeps its keys in insertion order. *)
#[warnings="-register-all"]
Inductive json : Type :=
| JNull
| JBool (b : bool)
| JInt (n : Z)
| JFloat (literal : string)
| JStr (s : string)
| JList (items : list json)
| JDict (fields : list (string * json)).

(** ** Strings *)

Module Str.

Definition chars (s : string) : list ascii := list_ascii_of_string s.
Definition of_chars (l : list ascii) : string := string_of_list_ascii l.

Definition newline : ascii := ascii_of_nat 10.
Definition dquote : string := String (ascii_of_nat 34) EmptyString.

(** Python truthiness of a [str]. *)
Definition nonempty (s : string) : bool :=
  match s with EmptyString => false | String _ _ => true end.

(** [c.lower()] for a code point below 256: A-Z, and the Latin-1 capitals
    U+00C0-U+00DE without the multiplication sign U+00D7. *)
Definition lower_char (c : ascii) : ascii :=
  let n := nat_of_ascii c in
  if ((65 <=? n) && (n <=? 90))%nat then ascii_of_nat (n + 32)
  else if ((192 <=? n) && (n <=? 222) && negb (n =? 215))%nat then ascii_of_nat (n + 32)
  else c.

Definition lower (s : string) : string := of_chars (map lower_char (chars s)).

(** [s.startswith(p)] on character lists. *)
Fixpoint starts (p s : list ascii) : bool :=
  match p, s with
  | [], _ => true
  | _ :: _, [] => false
  | a :: p', b :: s' => Ascii.eqb a b && starts p' s'
  end.

(** [needle in hay] on character lists. *)
Fixpoint occurs (needle hay : list ascii) : bool :=
  starts needle hay ||
  match hay with
  | [] => false
  | _ :: hay' => occurs needle hay'
  end.

Definition startswith (s p : string) : bool := starts (chars p) (chars s).
Definition contains (needle hay : string) : bool := occurs (chars needle) (chars hay).

(** The lines of a multi-line literal, joined by newlines. *)
Fixpoint unlines (ls : list string) : string :=
  match ls with
  | [] => EmptyString
  | [l] => l
  | l :: ls' => l +:+ String newline (unlines ls')
  end.

(** [l[-n:]] for [n > 0]. *)
Definition last_n {A} (n : nat) (l : list A) : list A := drop (length l - n) l.

End Str.

(** ** The link-stripping regular expression

    [re.sub(r'\[(.*?)\]\(http[s]?://.*?\)', r'\1', content)].

    The pattern is embedded piece by piece in the order a backtracking matcher
    tries it: each piece takes the continuation [k] that matches the rest of
    the pattern and returns the first success. *)

Module Re.

Definition cont (R : Type) : Type := list ascii -> option R.

(** A literal character. *)
Definition lit {R} (c : ascii) (k : cont R) : cont R :=
  fun s =>
    match s with
    | x :: s' => if Ascii.eqb x c then k s' else None
    | [] => None
    end.

Fixpoint lits {R} (cs : list ascii) (k : cont R) : cont R :=
  match cs with
  | [] => k
  | c :: cs' => lit c (lits cs' k)
  end.

(** [.] without [re.DOTALL]: any character except a newline. *)
Definition dot (c : ascii) : bool := negb (Ascii.eqb c Str.newline).

(** [.*?]: the shortest run of [.] after which the rest matches; the run
    is returned along with the rest's result. *)
Fixpoint lazy_dots {R} (k : cont R) (s : list ascii) : option (list ascii * R) :=
  match k s with
  | Some r => Some ([], r)
  | None =>
      match s with
      | c :: s' =>
          if dot c then
            match lazy_dots k s' with
            | Some (run, r) => Some (c :: run, r)
            | None => None
            end
          else None
      | [] => None
      end
  end.

(** [[cs]?]: greedy, one character of the class if the rest then matches,
    otherwise none. *)
Definition opt_class {R} (cs : list ascii) (k : cont R) : cont R :=
  fun s =>
    match s with
    | c :: s' =>
        if existsb (Ascii.eqb c) cs then
          match k s' with
          | Some r => Some r
          | None => k s
          end
        else k s
    | [] => k s
    end.

(** [\]\(http[s]?://.*?\)]: what follows group 1.  Yields the URL text and
    the input left after the match. *)
Definition link_tail : cont (list ascii * list ascii) :=
  lits (Str.chars "](http")
    (opt_class ["s"%char]
       (lits (Str.chars "://")
          (lazy_dots (lit ")"%char Some)))).

(** The whole pattern, anchored at the head of [s]: group 1, the URL text
    and the input left after the match. *)
Definition link_pattern : cont (list ascii * (list ascii * list ascii)) :=
  lit "["%char (lazy_dots link_tail).

(** [re.sub(pattern, r'\1', s)]: leftmost matches, left to right, each
    replaced by its group 1; the search resumes where the match ended.
    Every step consumes a character, so [length s] steps are enough. *)
Fixpoint sub_from (fuel : nat) (s : list ascii) : list ascii :=
  match fuel with
  | O => s
  | S fuel' =>
      match link_pattern s with
      | Some (text, (_, rest)) => text ++ sub_from fuel' rest
      | None =>
          match s with
          | [] => []
          | c :: s' => c :: sub_from fuel' s'
          end
      end
  end.

Definition sub (s : list ascii) : list ascii := sub_from (length s) s.

(** [re.findall(pattern, s)]: group 1 of each of those matches. *)
Fixpoint findall_from (fuel : nat) (s : list ascii) : list (list ascii) :=
  match fuel with
  | O => []
  | S fuel' =>
      match link_pattern s with
      | Some (text, (_, rest)) => text :: findall_from fuel' rest
      | None =>
          match s with
          | [] => []
          | _ :: s' => findall_from fuel' s'
          end
      end
  end.

Definition findall (s : list ascii) : list (list ascii) := findall_from (length s) s.

(** *** Notions used to reason about the pattern *)

(** [o] is a match. *)
Definition matched {R} (o : option R) : bool :=
  match o with Some _ => true | None => false end.

(** A match of [k] leaves no more input than it was given. *)
Definition shrinks {R} (rest_of : R -> list ascii) (k : cont R) : Prop :=
  forall s r, k s = Some r -> length (rest_of r) <= length s.

(** Whether [k] matches is settled before the first newline. *)
Definition line_local {R} (k : cont R) : Prop :=
  forall x a b,
    matched (k (x ++ Str.newline :: a)) = matched (k (x ++ Str.newline :: b)).

(** [opens t]: a bracket put in front of [t] starts a match. *)
Definition opens (t : list ascii) : bool := matched (lazy_dots link_tail t).

(** A text without an opening bracket. *)
Definition plain (text : list ascii) : bool := negb (existsb (Ascii.eqb "["%char) text).

End Re.

(** The safeguard of the composer, on strings. *)
Definition strip_links (content : string) : string :=
  Str.of_chars (Re.sub (Str.chars content)).

(** No link text of [content] has an opening bracket in it. *)
Definition links_not_nested (content : string) : bool :=
  forallb Re.plain (Re.findall (Str.chars content)).

(** ** Data model of the service *)

(** A conversation turn, which is also a chat message of a request:
    [{"role": ..., "content": ...}]. *)
Record message := Message { role : string; content : string }.

(** The parameter schemas.  The code hands them to the provider and never
    looks inside them, so each is kept by its name. *)
Inductive schema :=
| SCHEMA_DATA_H2H
| SCHEMA_DATA_MATCH_SCHEDULE_TABLE
| SCHEMA_DATA_STANDINGS_TABLE
| SCHEMA_DATA_PLAYER_PROFILE
| SCHEMA_DATA_TEAM_NEWS.

(** [{"type": "function", "function": {"name", "description", "parameters"}}]. *)
Record tool := Tool {
  tool_name : string;
  tool_description : string;
  tool_parameters : schema
}.

Definition TOOLS_AVAILABLE : list tool :=
  [ Tool "present_h2h_comparison"
         "Presents a head-to-head comparison between two teams." SCHEMA_DATA_H2H;
    Tool "display_standings_table"
         "Displays a league standings table." SCHEMA_DATA_STANDINGS_TABLE;
    Tool "show_match_schedule"
         "Shows a schedule of upcoming matches for a specific day or period."
         SCHEMA_DATA_MATCH_SCHEDULE_TABLE;
    Tool "get_player_profile"
         "Retrieves detailed information about a sports player." SCHEMA_DATA_PLAYER_PROFILE;
    Tool "get_team_news"
         "Fetches latest news articles for a specific sports team." SCHEMA_DATA_TEAM_NEWS ].

Definition component_types : list (string * string) :=
  [ ("present_h2h_comparison", "h2h_comparison_table");
    ("display_standings_table", "standings_table");
    ("show_match_schedule", "match_schedule_table");
    ("get_player_profile", "player_profile_card");
    ("get_team_news", "news_article_list") ]%string.

Definition TOOL_NAME_TO_COMPONENT_TYPE : gmap string string :=
  list_to_map component_types.

(** [d.get(key, fallback)]. *)
Definition dict_get {V} (d : gmap string V) (key : string) (fallback : V) : V :=
  default fallback (d !! key).

(** The keyword arguments of [client.chat.completions.create].  An argument
    that is [None] or is not given is [None]. *)
Record request := Request {
  req_model : string;
  req_messages : list message;
  req_tools : option (list tool);
  req_tool_choice : option string;
  req_temperature : option Q
}.

(** The part of the provider's response that the code reads:
    [response.choices[i].message.content], [.tool_calls[j].function.name]
    and [.arguments]. *)
Record function_call := FunctionCall { fn_name : string; fn_arguments : string }.
Record tool_call := ToolCall { tc_function : function_call }.
Record response_message := ResponseMessage {
  msg_content : option string;
  msg_tool_calls : option (list tool_call)
}.
Record choice := Choice { choice_message : response_message }.
Record response := Response { choices : list choice }.

(** [{"component_type": ..., "data": ...}] and [{"reply": ..., "ui_data": ...}]. *)
Record ui_payload := UiPayload { component_type : string; data : json }.
Record chat_result := ChatResult { reply : string; ui_data : ui_payload }.

(** [ChatRequest] and [ChatResponse] of [app/main.py], and what the endpoint
    answers: a response, or the [HTTPException] it raises to the framework.
    A request that names no user comes with [user_id = "default_user"]. *)
Record ChatRequest := { user_id : string; query : string }.
Record ChatResponse := { response_reply : string; response_ui_data : ui_payload }.

Inductive http_answer :=
| Answer (r : ChatResponse)
| HTTPException (status_code : nat) (detail : string).

Definition HISTORY_LIMIT : nat := 10.

(** ** Python operations the code relies on *)

(** [l[0]]. *)
Definition first_item {A} (l : list A) : outcome A :=
  match l with
  | x :: _ => Returned x
  | [] => Raised (Exn "IndexError" "list index out of range")
  end.

(** [s[:n]] where [s] may be [None]. *)
Definition slice_to (s : option string) (n : nat) : outcome string :=
  match s with
  | Some s => Returned (Str.of_chars (take n (Str.chars s)))
  | None => Raised (Exn "TypeError" "'NoneType' object is not subscriptable")
  end.

(** Truthiness of [message.content] and of [message.tool_calls]. *)
Definition has_content (c : option string) : bool :=
  match c with
  | Some s => Str.nonempty s
  | None => false
  end.

Definition called_tools (t : option (list tool_call)) : list tool_call :=
  match t with
  | Some l => l
  | None => []
  end.

(** [fields[key] = v] on a [dict]'s items. *)
Fixpoint dict_set (fields : list (string * json)) (key : string) (v : json)
  : list (string * json) :=
  match fields with
  | [] => [(key, v)]
  | (k, w) :: fields' =>
      if String.eqb k key then (k, v) :: fields' else (k, w) :: dict_set fields' key v
  end.

Definition type_name (v : json) : string :=
  match v with
  | JNull => "NoneType"
  | JBool _ => "bool"
  | JInt _ => "int"
  | JFloat _ => "float"
  | JStr _ => "str"
  | JList _ => "list"
  | JDict _ => "dict"
  end.

(** [d[key] = v] with a [str] key: only a [dict] takes it. *)
Definition setitem (d : json) (key : string) (v : json) : outcome json :=
  match d with
  | JDict fields => Returned (JDict (dict_set fields key v))
  | JList _ =>
      Raised (Exn "TypeError" "list indices must be integers or slices, not str")
  | _ =>
      Raised (Exn "TypeError"
                ("'" +:+ type_name d +:+ "' object does not support item assignment"))
  end.

(** ** Prompts *)

(** [system_prompt] of [gather_real_time_data].  Its two dashes are outside
    the 8-bit range and stand here as their UTF-8 bytes. *)
Definition GATHER_SYSTEM_PROMPT : string :=
  Str.unlines
    [ EmptyString;
      "    You are a highly-capable Sports Information Gatherer.";
      "    Your task is to fully understand the user's query in the context of the conversation history.";
      "    Then, use your search capabilities to find the most relevant, accurate, and up-to-date information.";
      "    Compile all the factual information you find—such as statistics, schedules, player details, team news, head-to-head records, or live scores—into a single, comprehensive text block.";
      "    Do NOT format this as a chat response. Do NOT use tools. Just return the raw, gathered data.";
      "    If the query is conversational (e.g., " +:+ Str.dquote +:+ "hello" +:+ Str.dquote +:+ ", " +:+ Str.dquote +:+ "who are you?" +:+ Str.dquote +:+ ", " +:+ Str.dquote +:+ "thanks" +:+ Str.dquote +:+ ") or clearly out-of-scope (e.g., " +:+ Str.dquote +:+ "what is the capital of France?" +:+ Str.dquote +:+ "), state that no data fetching is required.";
      "    " ].

(** [system_prompt] of the conversational branch. *)
Definition CHAT_SYSTEM_PROMPT : string :=
  Str.unlines
    [ EmptyString;
      "        You are GameNerd, a friendly and helpful sports AI assistant.";
      "        Based on the user's query and conversation history, provide a direct, conversational response.";
      "        If the user is asking about you, introduce yourself.";
      "        If the query is out of scope, politely state that you only handle sports and gaming topics.";
      "        Do NOT use any tools. Do NOT include markdown links or URLs.";
      "        " ].

(** [system_prompt] of the presentation branch. *)
Definition PRESENT_SYSTEM_PROMPT : string :=
  Str.unlines
    [ EmptyString;
      "        You are GameNerd, an expert sports AI assistant.";
      "        Your goal is to present information clearly to the user. You have been provided with a block of raw data.";
      EmptyString;
      "        Your tasks are:";
      "        1. Write a friendly, concise, and helpful text `reply` to the user's query based on the provided data.";
      "        2. Analyze the provided data and the user's original request.";
      "        3. Select the SINGLE most appropriate `tool` from the available list to structure the key information for a UI display.";
      "        4. Populate the arguments for your chosen tool completely and accurately using the provided data.";
      "        ";
      "        CRITICAL:";
      "        - You MUST call a tool if the query is data-related (schedules, stats, etc.).";
      "        - Your text `reply` must NOT contain any markdown links or URLs. Mention sources by name only if necessary.";
      "        " ].

(** [user_content] of the presentation branch, an f-string. *)
Definition present_user_content (user_query gathered_data : string) : string :=
  Str.unlines
    [ EmptyString;
      "        Here is the user's original query: " +:+ Str.dquote +:+ user_query +:+ Str.dquote;
      EmptyString;
      "        Here is the raw information I gathered for you:";
      "        <DATA_BLOCK>";
      "        " +:+ gathered_data;
      "        </DATA_BLOCK>";
      EmptyString;
      "        Now, please perform your tasks as instructed.";
      "        " ].

(** ** The data gatherer *)

Definition provider : Type := request -> outcome response.

Definition gather_messages (user_query : string) (conversation_history : list message)
  : list message :=
  [Message "system" GATHER_SYSTEM_PROMPT]
    ++ Str.last_n 6 conversation_history
    ++ [Message "user" user_query].

Definition gather_request (user_query : string) (conversation_history : list message)
  : request :=
  {| req_model := "gpt-4o-search-preview";
     req_messages := gather_messages user_query conversation_history;
     req_tools := None;
     req_tool_choice := None;
     req_temperature := None |}.

(** [gather_real_time_data].  The provider types the content of a message
    as an optional string, and the function returns it as it is; the log line
    before the [return] formats [gathered_data[:200]], which raises
    [TypeError] inside the [try] when the content is [None]. *)
Definition gather_real_time_data (create : provider)
    (user_query : string) (conversation_history : list message)
  : outcome (option string) :=
  try_except
    (response ← create (gather_request user_query conversation_history);
     first ← first_item (choices response);
     let gathered_data := msg_content (choice_message first) in
     _ ← slice_to gathered_data 200;
     mret gathered_data)
    (fun e =>
       mret (Some ("Error: Could not gather information due to an internal error: "
                   +:+ exn_str e))).

(** ** The response composer *)

(** The function builds its result in the dictionary [final_response], which
    the [except] clause goes on to update; a raise does not undo what the
    [try] block stored before it.  [prog] threads that dictionary. *)
Definition prog (A : Type) : Type := chat_result -> chat_result * outcome A.

#[global] Instance prog_ret : MRet prog := fun A a st => (st, Returned a).

#[global] Instance prog_bind : MBind prog :=
  fun A B (f : A -> prog B) (m : prog A) st =>
    match m st with
    | (st', Returned a) => f a st'
    | (st', Raised e) => (st', Raised e)
    end.

Definition lift {A} (o : outcome A) : prog A := fun st => (st, o).

Definition final_response : prog chat_result := fun st => (st, Returned st).

(** [final_response["reply"] = text]. *)
Definition set_reply (text : string) : prog unit :=
  fun st => ({| reply := text; ui_data := ui_data st |}, Returned tt).

(** [final_response["ui_data"] = payload]. *)
Definition set_ui_data (payload : ui_payload) : prog unit :=
  fun st => ({| reply := reply st; ui_data := payload |}, Returned tt).

(** [final_response["ui_data"]["data"][key] = v]. *)
Definition set_data_item (key : string) (v : json) : prog unit :=
  fun st =>
    match setitem (data (ui_data st)) key v with
    | Returned d =>
        ({| reply := reply st;
            ui_data := {| component_type := component_type (ui_data st); data := d |} |},
         Returned tt)
    | Raised e => (st, Raised e)
    end.

Definition when (b : bool) (m : prog unit) : prog unit :=
  if b then m else mret tt.

Definition try_prog {A} (body : prog A) (handler : exn -> prog A) : prog A :=
  fun st =>
    match body st with
    | (st', Returned a) => (st', Returned a)
    | (st', Raised e) => handler e st'
    end.

Definition GENERIC_TEXT : string := "generic_text".

Definition DEFAULT_REPLY : string :=
  "I'm sorry, I had trouble processing the sports information. Please try rephrasing your request.".

(** The default response defined at the start of the function. *)
Definition default_final_response : chat_result :=
  {| reply := DEFAULT_REPLY;
     ui_data := {| component_type := GENERIC_TEXT; data := JDict [] |} |}.

Definition SENTINEL : string := "no data fetching is required".
Definition SENTINEL_SHORT : string := "no data fetching".

(** The condition of the first [if]: gathering failed or was not needed. *)
Definition no_data (gathered_data : string) : bool :=
  Str.contains SENTINEL (Str.lower gathered_data)
  || Str.startswith gathered_data "Error:".

(** The condition under [tools=] and [tool_choice=]. *)
Definition offers_tools (gathered_data : string) : bool :=
  negb (Str.contains SENTINEL_SHORT (Str.lower gathered_data)).

Definition final_messages (user_query : string) (conversation_history : list message)
    (gathered_data : string) : list message :=
  if no_data gathered_data then
    [Message "system" CHAT_SYSTEM_PROMPT]
      ++ Str.last_n 6 conversation_history
      ++ [Message "user" user_query]
  else
    [ Message "system" PRESENT_SYSTEM_PROMPT;
      Message "user" (present_user_content user_query gathered_data) ].

(** The request of the second call. *)
Definition final_request (user_query : string) (conversation_history : list message)
    (gathered_data : string) : request :=
  {| req_model := "gpt-4o";
     req_messages := final_messages user_query conversation_history gathered_data;
     req_tools := if offers_tools gathered_data then Some TOOLS_AVAILABLE else None;
     req_tool_choice := if offers_tools gathered_data then Some "auto"%string else None;
     req_temperature := Some (2 # 10)%Q |}.

Section Composer.

(** [json.loads]. *)
Variable json_loads : string -> outcome json.

(** The [try] block. *)
Definition compose (create : provider) (req : request) : prog chat_result :=
  response ← lift (create req);
  first ← lift (first_item (choices response));
  let response_message := choice_message first in
  when (has_content (msg_content response_message))
    (set_reply (strip_links (default EmptyString (msg_content response_message))));;
  match called_tools (msg_tool_calls response_message) with
  | tool_call :: _ =>
      let function_name := fn_name (tc_function tool_call) in
      function_args ← lift (json_loads (fn_arguments (tc_function tool_call)));
      let component_type :=
        dict_get TOOL_NAME_TO_COMPONENT_TYPE function_name GENERIC_TEXT in
      set_ui_data {| component_type := component_type; data := function_args |};;
      when (negb (has_content (msg_content response_message)))
        (set_reply "Certainly! Here is the information you requested.");;
      final_response
  | [] =>
      when (negb (has_content (msg_content response_message)))
        (set_reply "I've processed your request.");;
      final_response
  end.

(** The [except Exception as e] clause. *)
Definition on_error (e : exn) : prog chat_result :=
  set_reply
    ("An unexpected server error occurred while formatting the response: " +:+ exn_str e);;
  set_data_item "error" (JStr (exn_str e));;
  final_response.

(** The reply after a response with content [c]: the stripped content, or
    [fallback] when there is none. *)
Definition reply_for (c : option string) (fallback : string) : string :=
  if has_content c then strip_links (default EmptyString c) else fallback.

(** The default response as the [except] clause leaves it. *)
Definition error_response (e : exn) : chat_result :=
  {| reply :=
       "An unexpected server error occurred while formatting the response: " +:+ exn_str e;
     ui_data :=
       {| component_type := GENERIC_TEXT;
          data := JDict [("error"%string, JStr (exn_str e))] |} |}.

Definition generate_final_response_with_tools (create : provider)
    (user_query : string) (conversation_history : list message)
    (gathered_data : string) : outcome chat_result :=
  snd (try_prog
         (compose create (final_request user_query conversation_history gathered_data))
         on_error
         default_final_response).

(** ** The orchestrator *)

(** [process_user_query].  The composer starts with [gathered_data.lower()],
    outside its [try]: a [None] would raise [AttributeError] there. *)
Definition process_user_query (create : provider)
    (user_query : string) (conversation_history : list message) : outcome chat_result :=
  gathered_data ← gather_real_time_data create user_query conversation_history;
  match gathered_data with
  | Some text =>
      generate_final_response_with_tools create user_query conversation_history text
  | None =>
      Raised (Exn "AttributeError" "'NoneType' object has no attribute 'lower'")
  end.

(** ** The chat endpoint and its history store ([app/main.py]) *)

(** [handle_chat]: the new [conversation_histories] and the endpoint's
    answer.  [current_history] is the stored list itself when the user has
    one; the two [append]s and the assignment of the slice follow each
    other with nothing in between that can raise or yield, so the store is
    observed only with the slice in place. *)
Definition handle_chat (create : provider)
    (conversation_histories : gmap string (list message)) (request : ChatRequest)
  : gmap string (list message) * http_answer :=
  if negb (Str.nonempty (query request)) then
    (conversation_histories, HTTPException 400 "Query cannot be empty")
  else
    let user_id := user_id request in
    let user_query := query request in
    let current_history := default [] (conversation_histories !! user_id) in
    match process_user_query create user_query current_history with
    | Returned final_result =>
        let current_history := current_history ++ [Message "user" user_query] in
        let current_history :=
          if Str.nonempty (reply final_result)
          then current_history ++ [Message "assistant" (reply final_result)]
          else current_history in
        (<[user_id := Str.last_n HISTORY_LIMIT current_history]> conversation_histories,
         Answer {| response_reply := reply final_result;
                   response_ui_data := ui_data final_result |})
    | Raised e =>
        (conversation_histories,
         Answer {| response_reply :=
                     "A critical server error (" +:+ exn_type e
                     +:+ ") occurred. Please try again later.";
                   response_ui_data :=
                     {| component_type := GENERIC_TEXT;
                        data := JDict [("error"%string,
                                        JStr ("Server error: " +:+ exn_type e))] |} |})
    end.

(** A chat call as the service meets it: the request, and the provider as it
    behaves while this request is served. *)
Record chat_call := ChatCall { call_provider : provider; call_request : ChatRequest }.

Definition serve (conversation_histories : gmap string (list message)) (c : chat_call)
  : gmap string (list message) :=
  fst (handle_chat (call_provider c) conversation_histories (call_request c)).

(** The store after a sequence of calls, starting from [conversation_histories]. *)
Definition serve_all (conversation_histories : gmap string (list message))
    (calls : list chat_call) : gmap string (list message) :=
  foldl serve conversation_histories calls.

(** A successful chat turn: the query is accepted and the orchestrator
    returns a reply, which the endpoint stores as the assistant's turn.
    [exchange] is that turn's query and reply. *)
Definition exchange (conversation_histories : gmap string (list message)) (c : chat_call)
  : option (string * string) :=
  let request := call_request c in
  if negb (Str.nonempty (query request)) then None
  else
    match process_user_query (call_provider c) (query request)
            (default [] (conversation_histories !! user_id request)) with
    | Returned final_result =>
        if Str.nonempty (reply final_result)
        then Some (query request, reply final_result)
        else None
    | Raised _ => None
    end.

(** The calls of [user] among [calls], each paired with its outcome as a
    turn, in the order served. *)
Fixpoint turns_of (user : string) (conversation_histories : gmap string (list message))
    (calls : list chat_call) : list (option (string * string)) :=
  match calls with
  | [] => []
  | c :: calls' =>
      (if String.eqb (user_id (call_request c)) user
       then [exchange conversation_histories c] else [])
        ++ turns_of user (serve conversation_histories c) calls'
  end.

(** The two history entries of a turn. *)
Definition turn_messages (t : string * string) : list message :=
  [Message "user" (fst t); Message "assistant" (snd t)].

End Composer.

(** ** Sample documents and providers for the examples *)

(** A decoder that agrees with [json.loads] on the two documents of the
    examples: [{}], and [not json], which is no JSON text. *)
Definition sample_loads (s : string) : outcome json :=
  if String.eqb s "{}" then Returned (JDict [])
  else Raised (Exn "JSONDecodeError" "Expecting value: line 1 column 1 (char 0)").

(** A provider that answers the gathering call with [gathered] and the
    composing call with [final]. *)
Definition sample_provider (gathered final : outcome response) : provider :=
  fun req =>
    if String.eqb (req_model req) "gpt-4o-search-preview" then gathered else final.

Definition text_response (text : string) : response :=
  Response [Choice (ResponseMessage (Some text) None)].

Definition tool_response (text : option string) (calls : list tool_call) : response :=
  Response [Choice (ResponseMessage text (Some calls))].

Definition connection_error : exn := Exn "APIConnectionError" "Connection error.".

(** Six greetings of one user, with another user's call in between. *)
Definition greeter : provider :=
  sample_provider (Returned (text_response "No data fetching is required."))
                  (Returned (text_response "Hello! I am GameNerd.")).

Definition sample_calls : list chat_call :=
  [ ChatCall greeter {| user_id := "ann"; query := "hello 1" |};
    ChatCall greeter {| user_id := "ann"; query := "hello 2" |};
    ChatCall greeter {| user_id := "bob"; query := "hi" |};
    ChatCall greeter {| user_id := "ann"; query := "hello 3" |};
    ChatCall greeter {| user_id := "ann"; query := "hello 4" |};
    ChatCall greeter {| user_id := "ann"; query := "hello 5" |};
    ChatCall greeter {| user_id := "ann"; query := "hello 6" |} ].

Definition sample_exchanges : list (string * string) :=
  [ ("hello 1", "Hello! I am GameNerd.");
    ("hello 2", "Hello! I am GameNerd.");
    ("hello 3", "Hello! I am GameNerd.");
    ("hello 4", "Hello! I am GameNerd.");
    ("hello 5", "Hello! I am GameNerd.");
    ("hello 6", "Hello! I am GameNerd.") ]%string.

(** The provider's side of the tool protocol: a call that offers no tools is
    answered without tool calls. *)
Definition answers_without_tools (create : provider) : Prop :=
  forall req response first others,
    req_tools req = None ->
    create req = Returned response ->
    choices response = first :: others ->
    called_tools (msg_tool_calls (choice_message first)) = [].

(** ** The functions with their log lines *)

Module Logged.
Section Functions.

(** [print], applied to the line the code formats, and
    [traceback.print_exc], applied to the exception being handled: each
    writes and returns, or raises (a text the stream cannot encode, a stream
    that is closed). *)
Variable print : string -> outcome unit.
Variable print_exc : exn -> outcome unit.

(** [json.loads]. *)
Variable json_loads : string -> outcome json.

(** [s[:n]] of a [str]. *)
Definition prefix (n : nat) (s : string) : string :=
  Str.of_chars (take n (Str.chars s)).

(** [str(n)] of a length. *)
Definition decimal (n : nat) : string := NilZero.string_of_uint (Nat.to_uint n).

(** [gather_real_time_data]: the first log line stands before the [try], the
    second inside it, the third and the traceback in the [except] clause. *)
Definition gather_real_time_data (create : provider)
    (user_query : string) (conversation_history : list message)
  : outcome (option string) :=
  _ ← print ("--- Step 1: GATHERING real-time data for query: '"
             +:+ prefix 60 user_query +:+ "...' ---");
  try_except
    (response ← create (gather_request user_query conversation_history);
     first ← first_item (choices response);
     let gathered_data := msg_content (choice_message first) in
     snippet ← slice_to gathered_data 200;
     _ ← print (">>> Data gathering complete. Snippet: " +:+ snippet +:+ "...");
     mret gathered_data)
    (fun e =>
       _ ← print ("!!! ERROR during Step 1 (gather_real_time_data): " +:+ exn_str e);
       _ ← print_exc e;
       mret (Some ("Error: Could not gather information due to an internal error: "
                   +:+ exn_str e))).

(** The [try] block of the composer. *)
Definition compose (create : provider) (req : request) : prog chat_result :=
  response ← lift (create req);
  first ← lift (first_item (choices response));
  let response_message := choice_message first in
  when (has_content (msg_content response_message))
    (set_reply (strip_links (default EmptyString (msg_content response_message))));;
  match called_tools (msg_tool_calls response_message) with
  | tool_call :: _ =>
      let function_name := fn_name (tc_function tool_call) in
      function_args ← lift (json_loads (fn_arguments (tc_function tool_call)));
      let component_type :=
        dict_get TOOL_NAME_TO_COMPONENT_TYPE function_name GENERIC_TEXT in
      set_ui_data {| component_type := component_type; data := function_args |};;
      when (negb (has_content (msg_content response_message)))
        (set_reply "Certainly! Here is the information you requested.");;
      lift (print (">>> UI component generated: '" +:+ component_type +:+ "'"));;
      final_response
  | [] =>
      lift (print ">>> No tool call was made. Response is text-only.");;
      when (negb (has_content (msg_content response_message)))
        (set_reply "I've processed your request.");;
      final_response
  end.

(** The [except Exception as e] clause of the composer. *)
Definition on_error (e : exn) : prog chat_result :=
  lift (print ("!!! UNEXPECTED ERROR in Step 2 (generate_final_response_with_tools): "
               +:+ exn_str e));;
  lift (print_exc e);;
  set_reply
    ("An unexpected server error occurred while formatting the response: " +:+ exn_str e);;
  set_data_item "error" (JStr (exn_str e));;
  final_response.

(** [generate_final_response_with_tools]: two log lines stand before the
    [try]. *)
Definition generate_final_response_with_tools (create : provider)
    (user_query : string) (conversation_history : list message)
    (gathered_data : string) : outcome chat_result :=
  _ ← print "--- Step 2: GENERATING final response and UI data ---";
  _ ← print (if no_data gathered_data
             then ">>> No data fetched or required. Generating a conversational reply."
             else ">>> Data was gathered. Preparing to generate response with tools.");
  snd (try_prog
         (compose create (final_request user_query conversation_history gathered_data))
         on_error
         default_final_response).

(** [process_user_query].  With [None] for the gathered data the composer
    would write its first log line and raise at [gathered_data.lower()]. *)
Definition process_user_query (create : provider)
    (user_query : string) (conversation_history : list message) : outcome chat_result :=
  gathered_data ← gather_real_time_data create user_query conversation_history;
  match gathered_data with
  | Some text =>
      generate_final_response_with_tools create user_query conversation_history text
  | None =>
      _ ← print "--- Step 2: GENERATING final response and UI data ---";
      Raised (Exn "AttributeError" "'NoneType' object has no attribute 'lower'")
  end.

(** The [except Exception as e] clause of the endpoint. *)
Definition chat_error (e : exn) : outcome http_answer :=
  _ ← print ("!!! UNHANDLED EXCEPTION in /chat endpoint: "
             +:+ exn_type e +:+ " - " +:+ exn_str e);
  _ ← print_exc e;
  mret (Answer {| response_reply :=
                    "A critical server error (" +:+ exn_type e
                    +:+ ") occurred. Please try again later.";
                  response_ui_data :=
                    {| component_type := GENERIC_TEXT;
                       data := JDict [("error"%string,
                                       JStr ("Server error: " +:+ exn_type e))] |} |}).

(** [handle_chat]: the new [conversation_histories], and the endpoint's
    answer or the exception that escapes it.  The first log line stands before
    the check of the query and before the [try]; the log line of the [try]
    comes after the history is stored. *)
Definition handle_chat (create : provider)
    (conversation_histories : gmap string (list message)) (request : ChatRequest)
  : gmap string (list message) * outcome http_answer :=
  match print ("--- /chat CALLED by user: " +:+ user_id request +:+ ", query: '"
               +:+ prefix 60 (query request) +:+ "...' ---") with
  | Raised e => (conversation_histories, Raised e)
  | Returned _ =>
      if negb (Str.nonempty (query request)) then
        (conversation_histories, Returned (HTTPException 400 "Query cannot be empty"))
      else
        let user_id := user_id request in
        let user_query := query request in
        let current_history := default [] (conversation_histories !! user_id) in
        match process_user_query create user_query current_history with
        | Returned final_result =>
            let current_history := current_history ++ [Message "user" user_query] in
            let current_history :=
              if Str.nonempty (reply final_result)
              then current_history ++ [Message "assistant" (reply final_result)]
              else current_history in
            let stored := Str.last_n HISTORY_LIMIT current_history in
            let conversation_histories := <[user_id := stored]> conversation_histories in
            match print (">>> History for " +:+ user_id +:+ " updated. New length: "
                         +:+ decimal (length stored)) with
            | Returned _ =>
                (conversation_histories,
                 Returned (Answer {| response_reply := reply final_result;
                                     response_ui_data := ui_data final_result |}))
            | Raised e => (conversation_histories, chat_error e)
            end
        | Raised e => (conversation_histories, chat_error e)
        end
  end.

End Functions.
End Logged.

(** Log streams for the examples: one that accepts every line, and one that
    encodes ASCII only. *)
Definition quiet_print : string -> outcome unit := fun _ => Returned tt.
Definition quiet_print_exc : exn -> outcome unit := fun _ => Returned tt.

Definition ascii_print : string -> outcome unit :=
  fun text =>
    if forallb (fun c => nat_of_ascii c <? 128) (Str.chars text) then Returned tt
    else Raised (Exn "UnicodeEncodeError"
                   "'ascii' codec can't encode character: ordinal not in range(128)").

(** A query with the letter U+00E9 in it. *)
Definition accented_query : string :=
  "How many goals has Mbapp" +:+ String (ascii_of_nat 233) EmptyString +:+ " scored?".

(** ** Notions used by the further properties *)

(** The two schemes the pattern knows. *)
Definition scheme (secure : bool) : list ascii :=
  if secure then Str.chars "https://" else Str.chars "http://".

(** [c not in text]. *)
Definition without (c : ascii) (text : list ascii) : bool :=
  negb (existsb (Ascii.eqb c) text).

(** A text without a newline. *)
Definition one_line (s : string) : bool := forallb Re.dot (Str.chars s).

(** [[text](scheme url)] as markdown writes a link. *)
Definition markdown_link (secure : bool) (text url : string) : string :=
  "[" +:+ text +:+ "](" +:+ Str.of_chars (scheme secure) +:+ url +:+ ")".

(** An entry the endpoint may store: a user's or the assistant's, with some
    content. *)
Definition stored_turn_ok (m : message) : bool :=
  (String.eqb (role m) "user" || String.eqb (role m) "assistant")
  && Str.nonempty (content m).

(** The calls of one user. *)
Definition calls_of (user : string) (calls : list chat_call) : list chat_call :=
  List.filter (fun c => String.eqb (user_id (call_request c)) user) calls.

(** The entries a call appends to its user's history: none when the query
    is refused, the query alone when the reply is empty, otherwise both. *)
Definition stored_entries (json_loads : string -> outcome json)
    (conversation_histories : gmap string (list message)) (c : chat_call) : list message :=
  let request := call_request c in
  if Str.nonempty (query request) then
    match process_user_query json_loads (call_provider c) (query request)
            (default [] (conversation_histories !! user_id request)) with
    | Returned final_result =>
        Message "user" (query request)
          :: (if Str.nonempty (reply final_result)
              then [Message "assistant" (reply final_result)] else [])
    | Raised _ => []
    end
  else [].

(** All the entries the calls of [user] append, in the order served. *)
Fixpoint entries_of (json_loads : string -> outcome json) (user : string)
    (conversation_histories : gmap string (list message)) (calls : list chat_call)
  : list message :=
  match calls with
  | [] => []
  | c :: calls' =>
      (if String.eqb (user_id (call_request c)) user
       then stored_entries json_loads conversation_histories c else [])
        ++ entries_of json_loads user (serve json_loads conversation_histories c) calls'
  end.

(** The component types the user interface can be handed. *)
Definition known_component_types : list string :=
  GENERIC_TEXT :: map snd component_types.

(** A provider that is down. *)
Definition failing_provider (e : exn) : provider := fun _ => Raised e.

(** * Properties *)

(** ** The regular expression *)

Module ReFacts.
Import Re.

Lemma lit_inv {R} c (k : cont R) s r :
  lit c k s = Some r -> exists s', s = c :: s' /\ k s' = Some r.
Proof.
  destruct s as [|x s']; simpl; [discriminate|].
  destruct (Ascii.eqb_spec x c) as [->|]; [|discriminate].
  intros H. exists s'. split; [reflexivity | exact H].
Qed.

Lemma lit_other {R} c (k : cont R) x s : x <> c -> lit c k (x :: s) = None.
Proof.
  intros Hne. simpl. destruct (Ascii.eqb_spec x c); [contradiction | reflexivity].
Qed.

Lemma lazy_dots_inv {R} (k : cont R) s run r :
  lazy_dots k s = Some (run, r) ->
  exists s', s = run ++ s' /\ k s' = Some r /\ forallb dot run = true.
Proof.
  revert run. induction s as [|c s IH]; intros run; simpl.
  - destruct (k []) eqn:Hk; [|discriminate].
    intros [= <- <-]. exists []. auto.
  - destruct (k (c :: s)) eqn:Hk.
    + intros [= <- <-]. exists (c :: s). auto.
    + destruct (dot c) eqn:Hc; [|discriminate].
      destruct (lazy_dots k s) as [[run' r']|] eqn:Hl; [|discriminate].
      intros [= <- <-]. destruct (IH run' eq_refl) as (s' & -> & Hk' & Hd).
      exists s'. simpl. rewrite Hc. auto.
Qed.

(** *** Every match consumes input *)

Lemma shrinks_accept : shrinks id Some.
Proof. intros s r [= ->]. reflexivity. Qed.

Lemma shrinks_lit {R} rest_of c (k : cont R) :
  shrinks rest_of k -> shrinks rest_of (lit c k).
Proof.
  intros Hk s r H. apply lit_inv in H as (s' & -> & H).
  apply Hk in H. simpl. lia.
Qed.

Lemma shrinks_lits {R} rest_of cs (k : cont R) :
  shrinks rest_of k -> shrinks rest_of (lits cs k).
Proof. induction cs; simpl; auto using shrinks_lit. Qed.

Lemma shrinks_opt_class {R} rest_of cs (k : cont R) :
  shrinks rest_of k -> shrinks rest_of (opt_class cs k).
Proof.
  intros Hk [|c s] r; simpl; [apply Hk|].
  destruct (existsb _ cs); [|apply Hk].
  destruct (k s) eqn:Hs; [|apply Hk].
  intros [= <-]. apply Hk in Hs. lia.
Qed.

Lemma shrinks_lazy_dots {R} rest_of (k : cont R) :
  shrinks rest_of k -> shrinks (fun p => rest_of (snd p)) (lazy_dots k).
Proof.
  intros Hk s [run r] H. apply lazy_dots_inv in H as (s' & -> & H & _).
  apply Hk in H. simpl. rewrite length_app. lia.
Qed.

Lemma link_tail_shrinks : shrinks snd link_tail.
Proof.
  unfold link_tail.
  apply shrinks_lits, shrinks_opt_class, shrinks_lits.
  apply (shrinks_lazy_dots id), shrinks_lit, shrinks_accept.
Qed.

Lemma link_pattern_cons t : link_pattern ("["%char :: t) = lazy_dots link_tail t.
Proof. reflexivity. Qed.

Lemma link_pattern_inv s text url rest :
  link_pattern s = Some (text, (url, rest)) ->
  exists t, s = "["%char :: t /\ lazy_dots link_tail t = Some (text, (url, rest)).
Proof. intros H. apply lit_inv in H as (t & -> & H). eauto. Qed.

Lemma link_pattern_rest s text url rest :
  link_pattern s = Some (text, (url, rest)) -> length rest < length s.
Proof.
  intros H. apply link_pattern_inv in H as (t & -> & H).
  apply (shrinks_lazy_dots snd _ link_tail_shrinks) in H. simpl in *. lia.
Qed.

Lemma link_pattern_nil : link_pattern [] = None.
Proof. reflexivity. Qed.

(** *** The scan of [re.sub] and [re.findall] *)

Lemma sub_from_enough n m s :
  length s <= n -> length s <= m -> sub_from n s = sub_from m s.
Proof.
  revert m s. induction n as [|n IH]; intros [|m] s Hn Hm; simpl.
  - reflexivity.
  - destruct s; [reflexivity | simpl in Hn; lia].
  - destruct s; [reflexivity | simpl in Hm; lia].
  - destruct (link_pattern s) as [[text [url rest]]|] eqn:Hp.
    + apply link_pattern_rest in Hp. f_equal. apply IH; lia.
    + destruct s as [|c s]; [reflexivity|]. simpl in *. f_equal. apply IH; lia.
Qed.

Lemma findall_from_enough n m s :
  length s <= n -> length s <= m -> findall_from n s = findall_from m s.
Proof.
  revert m s. induction n as [|n IH]; intros [|m] s Hn Hm; simpl.
  - reflexivity.
  - destruct s; [reflexivity | simpl in Hn; lia].
  - destruct s; [reflexivity | simpl in Hm; lia].
  - destruct (link_pattern s) as [[text [url rest]]|] eqn:Hp.
    + apply link_pattern_rest in Hp. f_equal. apply IH; lia.
    + destruct s as [|c s]; [reflexivity|]. simpl in *. apply IH; lia.
Qed.

Lemma sub_nil : sub [] = [].
Proof. reflexivity. Qed.

Lemma sub_link s text url rest :
  link_pattern s = Some (text, (url, rest)) -> sub s = text ++ sub rest.
Proof.
  intros Hp. pose proof (link_pattern_rest _ _ _ _ Hp) as Hlen.
  unfold sub. destruct s as [|c s]; [discriminate|].
  cbn [length sub_from]. rewrite Hp. f_equal.
  apply sub_from_enough; simpl in *; lia.
Qed.

Lemma sub_skip c s : link_pattern (c :: s) = None -> sub (c :: s) = c :: sub s.
Proof. intros Hp. unfold sub. cbn [length sub_from]. rewrite Hp. reflexivity. Qed.

Lemma findall_nil : findall [] = [].
Proof. reflexivity. Qed.

Lemma findall_link s text url rest :
  link_pattern s = Some (text, (url, rest)) -> findall s = text :: findall rest.
Proof.
  intros Hp. pose proof (link_pattern_rest _ _ _ _ Hp) as Hlen.
  unfold findall. destruct s as [|c s]; [discriminate|].
  cbn [length findall_from]. rewrite Hp. f_equal.
  apply findall_from_enough; simpl in *; lia.
Qed.

Lemma findall_skip c s : link_pattern (c :: s) = None -> findall (c :: s) = findall s.
Proof. intros Hp. unfold findall. cbn [length findall_from]. rewrite Hp. reflexivity. Qed.

(** Induction along the scan: the empty input, a character that starts no
    match, a match. *)
Lemma scan_ind (P : list ascii -> Prop) :
  P [] ->
  (forall c s, link_pattern (c :: s) = None -> P s -> P (c :: s)) ->
  (forall s text url rest,
      link_pattern s = Some (text, (url, rest)) -> P rest -> P s) ->
  forall s, P s.
Proof.
  intros Hnil Hskip Hlink s.
  remember (length s) as n eqn:Hn. revert s Hn.
  induction n as [n IH] using lt_wf_ind. intros s ->.
  destruct (link_pattern s) as [[text [url rest]]|] eqn:Hp.
  - apply (Hlink _ _ _ _ Hp).
    apply (IH (length rest)); [eapply link_pattern_rest; eassumption | reflexivity].
  - destruct s as [|c s]; [exact Hnil|].
    apply (Hskip _ _ Hp). apply (IH (length s)); [simpl; lia | reflexivity].
Qed.

(** *** A link never crosses a line *)

(** After a run of [.], a bracket still opens the link that follows. *)
Lemma lazy_dots_prefix {R} (k : cont R) x t :
  forallb dot x = true ->
  matched (lazy_dots k t) = true -> matched (lazy_dots k (x ++ t)) = true.
Proof.
  intros Hx Ht. induction x as [|c x IH]; [exact Ht|].
  simpl in Hx. apply andb_prop in Hx as [Hc Hx].
  simpl. destruct (k (c :: x ++ t)); [reflexivity|].
  rewrite Hc. specialize (IH Hx).
  destruct (lazy_dots k (x ++ t)) as [[run r]|]; [reflexivity | discriminate].
Qed.

Lemma line_local_accept : line_local (@Some (list ascii)).
Proof. intros x a b. reflexivity. Qed.

Lemma line_local_lit {R} c (k : cont R) :
  c <> Str.newline -> line_local k -> line_local (lit c k).
Proof.
  intros Hc Hk [|y x] a b.
  - simpl app. rewrite !lit_other by congruence. reflexivity.
  - simpl. destruct (Ascii.eqb y c); [apply Hk | reflexivity].
Qed.

Lemma line_local_lits {R} cs (k : cont R) :
  Forall (fun c => c <> Str.newline) cs -> line_local k -> line_local (lits cs k).
Proof.
  induction 1 as [|c cs Hc _ IH]; intros Hk; simpl; [exact Hk|].
  apply line_local_lit; auto.
Qed.

Lemma line_local_opt_class {R} cs (k : cont R) :
  existsb (Ascii.eqb Str.newline) cs = false ->
  line_local k -> line_local (opt_class cs k).
Proof.
  intros Hcs Hk [|y x] a b.
  - simpl. rewrite Hcs. apply (Hk []).
  - simpl. destruct (existsb (Ascii.eqb y) cs); [|apply (Hk (y :: x))].
    pose proof (Hk x a b) as Hx. pose proof (Hk (y :: x) a b) as Hyx. simpl in Hyx.
    destruct (k (x ++ Str.newline :: a)), (k (x ++ Str.newline :: b));
      simpl in Hx; try discriminate; [reflexivity | exact Hyx].
Qed.

Lemma line_local_lazy_dots {R} (k : cont R) :
  line_local k -> line_local (lazy_dots k).
Proof.
  intros Hk x a b. induction x as [|y x IH].
  - pose proof (Hk [] a b) as H0. simpl in *.
    destruct (k (Str.newline :: a)), (k (Str.newline :: b));
      simpl in H0; try discriminate; reflexivity.
  - pose proof (Hk (y :: x) a b) as Hyx. simpl in *.
    destruct (k (y :: x ++ Str.newline :: a)), (k (y :: x ++ Str.newline :: b));
      simpl in Hyx; try discriminate; [reflexivity|].
    destruct (dot y); [|reflexivity].
    destruct (lazy_dots k (x ++ Str.newline :: a)) as [[? ?]|],
             (lazy_dots k (x ++ Str.newline :: b)) as [[? ?]|];
      simpl in IH; try discriminate; reflexivity.
Qed.

Lemma link_tail_local : line_local link_tail.
Proof.
  unfold link_tail.
  apply line_local_lits; [repeat constructor; discriminate|].
  apply line_local_opt_class; [reflexivity|].
  apply line_local_lits; [repeat constructor; discriminate|].
  apply line_local_lazy_dots, line_local_lit; [discriminate|].
  apply line_local_accept.
Qed.

(** *** What one pass leaves behind *)

Lemma opens_prefix x t : forallb dot x = true -> opens t = true -> opens (x ++ t) = true.
Proof. apply lazy_dots_prefix. Qed.

Lemma opens_line x a b : opens (x ++ Str.newline :: a) = opens (x ++ Str.newline :: b).
Proof. apply (line_local_lazy_dots _ link_tail_local). Qed.

Lemma link_pattern_opens s text url rest :
  link_pattern s = Some (text, (url, rest)) -> opens s = true.
Proof.
  intros H. apply link_pattern_inv in H as (t & -> & H).
  apply (opens_prefix ["["%char] t); [reflexivity|].
  unfold opens. rewrite H. reflexivity.
Qed.

(** Substitution removes text only where a link was, so it cannot make a
    bracket open a link that it did not open before. *)
Lemma opens_sub t :
  forall x, forallb dot x = true -> opens (x ++ sub t) = true -> opens (x ++ t) = true.
Proof.
  induction t as [| c s Hp IH | s text url rest Hp IH] using scan_ind; intros x Hx.
  - rewrite sub_nil. auto.
  - rewrite (sub_skip _ _ Hp). destruct (dot c) eqn:Hc.
    + replace (x ++ c :: sub s) with ((x ++ [c]) ++ sub s)
        by (rewrite <- app_assoc; reflexivity).
      replace (x ++ c :: s) with ((x ++ [c]) ++ s)
        by (rewrite <- app_assoc; reflexivity).
      apply IH. rewrite forallb_app, Hx. simpl. rewrite Hc. reflexivity.
    + assert (c = Str.newline) as ->.
      { unfold dot in Hc. apply negb_false_iff in Hc.
        destruct (Ascii.eqb_spec c Str.newline); [assumption | discriminate]. }
      rewrite (opens_line x (sub s) s). auto.
  - intros _. apply opens_prefix; [exact Hx|].
    eapply link_pattern_opens; eassumption.
Qed.

Lemma link_pattern_sub c s :
  link_pattern (c :: s) = None -> link_pattern (c :: sub s) = None.
Proof.
  destruct (Ascii.eqb_spec c "["%char) as [->|Hne].
  - rewrite !link_pattern_cons. intros Hs.
    pose proof (opens_sub s [] eq_refl) as H. unfold opens in H. simpl in H.
    rewrite Hs in H. destruct (lazy_dots link_tail (sub s)); [|reflexivity].
    specialize (H eq_refl). discriminate.
  - intros _. apply lit_other. exact Hne.
Qed.

Lemma sub_plain text s : plain text = true -> sub (text ++ s) = text ++ sub s.
Proof.
  unfold plain. induction text as [|c text IH]; [reflexivity|].
  simpl. rewrite negb_orb. intros [Hc Ht]%andb_prop.
  rewrite sub_skip, IH; auto.
  apply lit_other. intros ->. discriminate.
Qed.

(** A second pass finds nothing when no link text of the first had a
    bracket in it. *)
Lemma sub_sub s : forallb plain (findall s) = true -> sub (sub s) = sub s.
Proof.
  induction s as [| c s Hp IH | s text url rest Hp IH] using scan_ind.
  - reflexivity.
  - rewrite (findall_skip _ _ Hp), (sub_skip _ _ Hp). intros Hs.
    rewrite (sub_skip _ _ (link_pattern_sub _ _ Hp)), IH; auto.
  - rewrite (findall_link _ _ _ _ Hp), (sub_link _ _ _ _ Hp). simpl.
    intros [Ht Hs]%andb_prop. rewrite (sub_plain _ _ Ht), IH; auto.
Qed.

End ReFacts.

(** ** Strings *)

Module StrFacts.
Import Str.

Lemma chars_of_chars l : chars (of_chars l) = l.
Proof. apply list_ascii_of_string_of_list_ascii. Qed.

Lemma chars_append a b : chars (a +:+ b) = chars a ++ chars b.
Proof. induction a as [|c a IH]; simpl; [reflexivity | now rewrite IH]. Qed.

Lemma nonempty_append_l a b : nonempty a = true -> nonempty (a +:+ b) = true.
Proof. destruct a; [discriminate | reflexivity]. Qed.

Lemma starts_prefix a b s : starts (a ++ b) s = true -> starts a s = true.
Proof.
  revert s. induction a as [|c a IH]; intros [|d s]; simpl; try reflexivity; try discriminate.
  intros [Hc Hs]%andb_prop. rewrite Hc. simpl. auto.
Qed.

(** A text that contains [a ++ b] contains [a]. *)
Lemma occurs_prefix a b hay : occurs (a ++ b) hay = true -> occurs a hay = true.
Proof.
  induction hay as [|c hay IH]; simpl.
  - rewrite !orb_false_r. apply starts_prefix.
  - intros [H|H]%orb_prop; apply orb_true_iff.
    + left. eapply starts_prefix, H.
    + right. apply IH, H.
Qed.

Lemma last_n_length {A} n (l : list A) : length (last_n n l) = Nat.min (length l) n.
Proof. unfold last_n. rewrite length_drop. lia. Qed.

Lemma last_n_short {A} n (l : list A) : length l <= n -> last_n n l = l.
Proof. intros H. unfold last_n. replace (length l - n) with 0 by lia. reflexivity. Qed.

(** Truncating early does not change what the last [n] entries are. *)
Lemma last_n_app {A} n (a b : list A) : last_n n (last_n n a ++ b) = last_n n (a ++ b).
Proof.
  unfold last_n. rewrite <- drop_app_le by lia.
  rewrite drop_drop, !length_drop, !length_app. f_equal. lia.
Qed.

End StrFacts.

(** ** Link stripping *)

Example strip_source :
  strip_links "see [source](http://example.com) now" = "see source now"%string.
Proof. vm_compute. reflexivity. Qed.

Example strip_secure_source :
  strip_links "[a](https://x.y/z) and [b](ftp://x)" = "a and [b](ftp://x)"%string.
Proof. vm_compute. reflexivity. Qed.

Example strip_nested_once :
  strip_links "[[a](http://x)](http://y)" = "[a](http://y)"%string.
Proof. vm_compute. reflexivity. Qed.

Example strip_to_empty : strip_links "[](http://x)" = EmptyString.
Proof. vm_compute. reflexivity. Qed.

(** C8, as stated, fails: the text of the outer link of
    [[[a](http://x)](http://y)] keeps a link that only a second pass removes. *)
Lemma strip_links_twice_differs :
  strip_links (strip_links "[[a](http://x)](http://y)")
  <> strip_links "[[a](http://x)](http://y)".
Proof. vm_compute. discriminate. Qed.

(** C8, amended: link stripping is idempotent on every text none of whose
    link texts (group 1 of the matches, left to right) contains an opening
    bracket. *)
Theorem strip_links_idempotent (s : string) :
  links_not_nested s = true ->
  strip_links (strip_links s) = strip_links s.
Proof.
  intros H. unfold strip_links. rewrite StrFacts.chars_of_chars.
  f_equal. apply ReFacts.sub_sub. exact H.
Qed.

Lemma strip_links_idempotent_witness :
  links_not_nested "see [source](http://example.com) and [docs](https://d.io/x)" = true
  /\ strip_links (strip_links "see [source](http://example.com) and [docs](https://d.io/x)")
     = strip_links "see [source](http://example.com) and [docs](https://d.io/x)".
Proof.
  split; [vm_compute; reflexivity|].
  apply strip_links_idempotent. vm_compute. reflexivity.
Defined.

(** ** The composer *)

Section ComposerFacts.

Variable json_loads : string -> outcome json.
Variable create : provider.
Variables (user_query : string) (conversation_history : list message).
Variable gathered_data : string.

Let req := final_request user_query conversation_history gathered_data.
Let generate :=
  generate_final_response_with_tools json_loads create
    user_query conversation_history gathered_data.

Ltac run_composer :=
  unfold generate, generate_final_response_with_tools, try_prog, compose, on_error,
    final_response, set_reply, set_ui_data, set_data_item, when, lift,
    mbind, prog_bind, mret, prog_ret;
  fold req.

Lemma generate_raised e :
  create req = Raised e -> generate = Returned (error_response e).
Proof. intros H. run_composer. rewrite H. reflexivity. Qed.

Lemma generate_no_choice response :
  create req = Returned response ->
  choices response = [] ->
  generate = Returned (error_response (Exn "IndexError" "list index out of range")).
Proof. intros H H0. run_composer. rewrite H, H0. reflexivity. Qed.

Lemma generate_text response first others :
  create req = Returned response ->
  choices response = first :: others ->
  called_tools (msg_tool_calls (choice_message first)) = [] ->
  generate =
    Returned {| reply := reply_for (msg_content (choice_message first))
                           "I've processed your request.";
                ui_data := ui_data default_final_response |}.
Proof.
  intros H H0 Ht. run_composer. rewrite H, H0. simpl. rewrite Ht.
  unfold reply_for. destruct (has_content _); reflexivity.
Qed.

Lemma generate_tool response first others call rest args :
  create req = Returned response ->
  choices response = first :: others ->
  called_tools (msg_tool_calls (choice_message first)) = call :: rest ->
  json_loads (fn_arguments (tc_function call)) = Returned args ->
  generate =
    Returned {| reply := reply_for (msg_content (choice_message first))
                           "Certainly! Here is the information you requested.";
                ui_data :=
                  {| component_type :=
                       dict_get TOOL_NAME_TO_COMPONENT_TYPE
                         (fn_name (tc_function call)) GENERIC_TEXT;
                     data := args |} |}.
Proof.
  intros H H0 Ht Hj. run_composer. rewrite H, H0. simpl. rewrite Ht.
  unfold reply_for. destruct (has_content _); simpl; rewrite Hj; reflexivity.
Qed.

Lemma generate_tool_malformed response first others call rest e :
  create req = Returned response ->
  choices response = first :: others ->
  called_tools (msg_tool_calls (choice_message first)) = call :: rest ->
  json_loads (fn_arguments (tc_function call)) = Raised e ->
  generate = Returned (error_response e).
Proof.
  intros H H0 Ht Hj. run_composer. rewrite H, H0. simpl. rewrite Ht.
  destruct (has_content _); simpl; rewrite Hj; reflexivity.
Qed.

End ComposerFacts.

(** *** The registry *)

Example registry_standings :
  dict_get TOOL_NAME_TO_COMPONENT_TYPE "display_standings_table" GENERIC_TEXT
  = "standings_table"%string.
Proof. vm_compute. reflexivity. Qed.

Example registry_unknown :
  dict_get TOOL_NAME_TO_COMPONENT_TYPE "draw_chart" GENERIC_TEXT = GENERIC_TEXT.
Proof. vm_compute. reflexivity. Qed.

Lemma registry_nonempty name :
  Str.nonempty (dict_get TOOL_NAME_TO_COMPONENT_TYPE name GENERIC_TEXT) = true.
Proof.
  unfold dict_get. destruct (TOOL_NAME_TO_COMPONENT_TYPE !! name) as [v|] eqn:Hv;
    [|reflexivity].
  apply elem_of_list_to_map_2 in Hv. unfold component_types in Hv.
  repeat (apply elem_of_cons in Hv as [[= _ ->]|Hv]; [reflexivity|]).
  apply elem_of_nil in Hv. contradiction.
Qed.

(** *** Which request the composer sends *)

Lemma sentinel_short hay :
  Str.contains SENTINEL hay = true -> Str.contains SENTINEL_SHORT hay = true.
Proof.
  unfold Str.contains.
  change (Str.chars SENTINEL) with (Str.chars SENTINEL_SHORT ++ Str.chars " is required").
  apply StrFacts.occurs_prefix.
Qed.

Lemma sentinel_request q h g :
  Str.contains SENTINEL (Str.lower g) = true ->
  req_tools (final_request q h g) = None
  /\ req_tool_choice (final_request q h g) = None.
Proof.
  intros H%sentinel_short. unfold final_request, offers_tools. simpl.
  rewrite H. auto.
Qed.

(** An error marker that does not happen to spell the sentinel gets the
    conversational prompt, and the tools with it. *)
Lemma error_marker_request q h g :
  Str.startswith g "Error:" = true ->
  Str.contains SENTINEL_SHORT (Str.lower g) = false ->
  req_messages (final_request q h g)
  = [Message "system" CHAT_SYSTEM_PROMPT] ++ Str.last_n 6 h ++ [Message "user" q]
  /\ req_tools (final_request q h g) = Some TOOLS_AVAILABLE
  /\ req_tool_choice (final_request q h g) = Some "auto"%string.
Proof.
  intros He Hs. unfold final_request, final_messages, offers_tools, no_data. simpl.
  rewrite He, Hs, orb_true_r. auto.
Qed.

(** C2: the code does not do what the claim says.  For the error marker the
    gatherer produces on a connection failure the composer sends the
    conversational prompt with all the tools attached, and a tool call in the
    answer sets the component type. *)
Theorem error_marker_offers_tools :
  no_data "Error: Could not gather information due to an internal error: Connection error."
  = true
  /\ req_tools
       (final_request "who leads the league?" []
          "Error: Could not gather information due to an internal error: Connection error.")
     = Some TOOLS_AVAILABLE
  /\ generate_final_response_with_tools sample_loads
       (sample_provider (Raised connection_error)
          (Returned (tool_response None
                       [ToolCall (FunctionCall "display_standings_table" "{}")])))
       "who leads the league?" []
       "Error: Could not gather information due to an internal error: Connection error."
     = Returned {| reply := "Certainly! Here is the information you requested.";
                   ui_data := {| component_type := "standings_table";
                                 data := JDict [] |} |}.
Proof. repeat split; vm_compute; reflexivity. Qed.

(** C3: when the gathered data contains the sentinel, in any case of
    letters, the composer's request has neither tools nor a tool choice, and,
    the provider answering such a request without tool calls, the component
    type of the result is the generic default. *)
Theorem sentinel_no_tools (json_loads : string -> outcome json) (create : provider)
    (q : string) (h : list message) (g : string) :
  Str.contains SENTINEL (Str.lower g) = true ->
  answers_without_tools create ->
  req_tools (final_request q h g) = None
  /\ req_tool_choice (final_request q h g) = None
  /\ exists r,
       generate_final_response_with_tools json_loads create q h g = Returned r
       /\ component_type (ui_data r) = GENERIC_TEXT.
Proof.
  intros Hg Hc. destruct (sentinel_request q h g Hg) as [Ht Hch].
  split; [exact Ht|]. split; [exact Hch|].
  destruct (create (final_request q h g)) as [response|e] eqn:Hr.
  - destruct (choices response) as [|first others] eqn:Hch0.
    + eexists. split; [eapply generate_no_choice; eassumption | reflexivity].
    + eexists. split; [eapply generate_text; eauto | reflexivity].
  - eexists. split; [eapply generate_raised; eassumption | reflexivity].
Qed.

Lemma sentinel_no_tools_witness :
  req_tools (final_request "hello" [] "No data fetching is required for a greeting.") = None
  /\ req_tool_choice (final_request "hello" [] "No data fetching is required for a greeting.")
     = None
  /\ exists r,
    generate_final_response_with_tools sample_loads
      (fun _ => Returned (text_response "Hello! I am GameNerd."))
      "hello" [] "No data fetching is required for a greeting." = Returned r
    /\ component_type (ui_data r) = GENERIC_TEXT.
Proof.
  apply (sentinel_no_tools sample_loads
           (fun _ => Returned (text_response "Hello! I am GameNerd."))
           "hello" [] "No data fetching is required for a greeting.").
  - vm_compute. reflexivity.
  - intros req response first others _ [= <-] [= <- _]. reflexivity.
Defined.

(** C4: a tool call named [X] whose arguments decode to [A] gives the result
    the payload [{component_type: lookup of X, data: A}], the lookup falling
    back to the generic tag; [A] is stored as decoded. *)
Theorem tool_call_round_trip (json_loads : string -> outcome json) (create : provider)
    (q : string) (h : list message) (g : string)
    (response : response) (first : choice) (others : list choice)
    (X arguments : string) (rest : list tool_call) (A : json) :
  create (final_request q h g) = Returned response ->
  choices response = first :: others ->
  msg_tool_calls (choice_message first)
  = Some (ToolCall (FunctionCall X arguments) :: rest) ->
  json_loads arguments = Returned A ->
  exists r,
    generate_final_response_with_tools json_loads create q h g = Returned r
    /\ ui_data r
       = {| component_type := default GENERIC_TEXT (TOOL_NAME_TO_COMPONENT_TYPE !! X);
            data := A |}.
Proof.
  intros Hr Hch Ht Hj. eexists. split.
  - eapply generate_tool; [exact Hr | exact Hch | rewrite Ht; reflexivity | exact Hj].
  - reflexivity.
Qed.

Lemma tool_call_round_trip_witness :
  exists r,
    generate_final_response_with_tools sample_loads
      (fun _ => Returned (tool_response (Some "The table is below.")
                            [ToolCall (FunctionCall "display_standings_table" "{}")]))
      "show me the table" [] "1. Arsenal 2. Liverpool" = Returned r
    /\ ui_data r
       = {| component_type :=
              default GENERIC_TEXT (TOOL_NAME_TO_COMPONENT_TYPE !! "display_standings_table");
            data := JDict [] |}.
Proof.
  eapply (tool_call_round_trip sample_loads _ "show me the table" []
            "1. Arsenal 2. Liverpool" _ _ [] "display_standings_table" "{}" []);
    reflexivity.
Defined.

(** C5: the code does not do what the claim says.  On a connection error of
    the composing call the [except] clause returns the default response with
    its reply overwritten: the reply is not the fixed apology. *)
Lemma provider_failure_reply_differs :
  generate_final_response_with_tools sample_loads (fun _ => Raised connection_error)
    "who leads the league?" [] "1. Arsenal 2. Liverpool"
  = Returned
      {| reply := "An unexpected server error occurred while formatting the response: Connection error.";
         ui_data := {| component_type := "generic_text";
                       data := JDict [("error"%string, JStr "Connection error.")] |} |}
  /\ "An unexpected server error occurred while formatting the response: Connection error."%string
     <> DEFAULT_REPLY.
Proof. split; [vm_compute; reflexivity | discriminate]. Qed.

(** What the [except] clause returns for a failure [e] of the composing
    call. *)
Theorem provider_failure_result (json_loads : string -> outcome json) (create : provider)
    (q : string) (h : list message) (g : string) (e : exn) :
  create (final_request q h g) = Raised e ->
  generate_final_response_with_tools json_loads create q h g
  = Returned
      {| reply :=
           "An unexpected server error occurred while formatting the response: "
           +:+ exn_str e;
         ui_data := {| component_type := GENERIC_TEXT;
                       data := JDict [("error"%string, JStr (exn_str e))] |} |}.
Proof. apply generate_raised. Qed.

Lemma provider_failure_result_witness :
  generate_final_response_with_tools sample_loads (fun _ => Raised connection_error)
    "who leads the league?" [] "1. Arsenal 2. Liverpool"
  = Returned
      {| reply :=
           "An unexpected server error occurred while formatting the response: "
           +:+ exn_str connection_error;
         ui_data := {| component_type := GENERIC_TEXT;
                       data := JDict [("error"%string, JStr (exn_str connection_error))] |} |}.
Proof.
  apply (provider_failure_result sample_loads (fun _ => Raised connection_error)).
  reflexivity.
Defined.



(** C10: of several tool calls only the first counts.  The payload is built
    from the first call, its name looked up in the registry and its arguments
    decoded (or the decoder's error reported), and the whole result is the
    one the composer gives when the provider answers with that call alone:
    the later calls change nothing. *)
Theorem later_tool_calls_ignored (json_loads : string -> outcome json)
    (create : provider) (q : string) (h : list message) (g : string)
    (response : response) (first : choice) (others : list choice)
    (call : tool_call) (rest : list tool_call) :
  create (final_request q h g) = Returned response ->
  choices response = first :: others ->
  msg_tool_calls (choice_message first) = Some (call :: rest) ->
  rest <> [] ->
  match json_loads (fn_arguments (tc_function call)) with
  | Returned args =>
      generate_final_response_with_tools json_loads create q h g
      = Returned
          {| reply := reply_for (msg_content (choice_message first))
                        "Certainly! Here is the information you requested.";
             ui_data :=
               {| component_type :=
                    default GENERIC_TEXT
                      (TOOL_NAME_TO_COMPONENT_TYPE !! fn_name (tc_function call));
                  data := args |} |}
  | Raised e =>
      generate_final_response_with_tools json_loads create q h g
      = Returned (error_response e)
  end
  /\ generate_final_response_with_tools json_loads create q h g
     = generate_final_response_with_tools json_loads
         (fun _ =>
            Returned (Response
                        (Choice (ResponseMessage (msg_content (choice_message first))
                                   (Some [call])) :: others)))
         q h g.
Proof.
  intros Hr Hch Ht _.
  set (first' := Choice (ResponseMessage (msg_content (choice_message first)) (Some [call]))).
  destruct (json_loads (fn_arguments (tc_function call))) as [args|e] eqn:Hj.
  - rewrite (generate_tool json_loads create q h g response first others call rest args)
      by (auto; rewrite Ht; reflexivity).
    rewrite (generate_tool json_loads (fun _ => Returned (Response (first' :: others)))
               q h g _ first' others call [] args) by auto.
    split; reflexivity.
  - rewrite (generate_tool_malformed json_loads create q h g
               response first others call rest e)
      by (auto; rewrite Ht; reflexivity).
    rewrite (generate_tool_malformed json_loads
               (fun _ => Returned (Response (first' :: others)))
               q h g _ first' others call [] e) by auto.
    split; reflexivity.
Qed.

Lemma later_tool_calls_ignored_witness :
  generate_final_response_with_tools sample_loads
    (fun _ => Returned (tool_response (Some "Here is the table.")
                          [ToolCall (FunctionCall "display_standings_table" "{}");
                           ToolCall (FunctionCall "get_team_news" "not json")]))
    "show me the table" [] "1. Arsenal 2. Liverpool"
  = Returned {| reply := "Here is the table.";
                ui_data := {| component_type := "standings_table";
                              data := JDict [] |} |}
  /\ generate_final_response_with_tools sample_loads
       (fun _ => Returned (tool_response (Some "Here is the table.")
                             [ToolCall (FunctionCall "display_standings_table" "{}");
                              ToolCall (FunctionCall "get_team_news" "not json")]))
       "show me the table" [] "1. Arsenal 2. Liverpool"
     = generate_final_response_with_tools sample_loads
         (fun _ => Returned (tool_response (Some "Here is the table.")
                               [ToolCall (FunctionCall "display_standings_table" "{}")]))
         "show me the table" [] "1. Arsenal 2. Liverpool".
Proof.
  apply (later_tool_calls_ignored sample_loads
           (fun _ => Returned (tool_response (Some "Here is the table.")
                                 [ToolCall (FunctionCall "display_standings_table" "{}");
                                  ToolCall (FunctionCall "get_team_news" "not json")]))
           "show me the table" [] "1. Arsenal 2. Liverpool"
           (tool_response (Some "Here is the table.")
              [ToolCall (FunctionCall "display_standings_table" "{}");
               ToolCall (FunctionCall "get_team_news" "not json")])
           (Choice (ResponseMessage (Some "Here is the table.")
                      (Some [ToolCall (FunctionCall "display_standings_table" "{}");
                             ToolCall (FunctionCall "get_team_news" "not json")])))
           []
           (ToolCall (FunctionCall "display_standings_table" "{}"))
           [ToolCall (FunctionCall "get_team_news" "not json")]);
    [reflexivity | reflexivity | reflexivity | discriminate].
Defined.

Example second_tool_call_alone_differs :
  generate_final_response_with_tools sample_loads
    (fun _ => Returned (tool_response (Some "Here is the table.")
                          [ToolCall (FunctionCall "get_team_news" "{}")]))
    "show me the table" [] "1. Arsenal 2. Liverpool"
  = Returned {| reply := "Here is the table.";
                ui_data := {| component_type := "news_article_list";
                              data := JDict [] |} |}.
Proof. vm_compute. reflexivity. Qed.

Lemma reply_for_nonempty c fallback :
  Str.nonempty fallback = true ->
  Str.nonempty (reply_for c fallback) = true
  \/ exists text,
       c = Some text /\ Str.nonempty text = true /\ strip_links text = EmptyString.
Proof.
  intros Hf. unfold reply_for. destruct c as [text|]; simpl; [|auto].
  destruct (Str.nonempty text) eqn:Ht; [|auto].
  destruct (strip_links text) eqn:Hs; [right; eauto | left; reflexivity].
Qed.

(** The composer always returns, and with a component type; its reply is
    empty only when the provider's text is not empty and link stripping
    leaves nothing of it. *)
Lemma generate_returns (json_loads : string -> outcome json) (create : provider)
    (q : string) (h : list message) (g : string) :
  exists r,
    generate_final_response_with_tools json_loads create q h g = Returned r
    /\ Str.nonempty (component_type (ui_data r)) = true
    /\ (Str.nonempty (reply r) = true
        \/ exists text, Str.nonempty text = true /\ strip_links text = EmptyString).
Proof.
  destruct (create (final_request q h g)) as [response|e] eqn:Hr.
  - destruct (choices response) as [|first others] eqn:Hch.
    + eexists. split; [eapply generate_no_choice; eassumption|]. split; [|left]; reflexivity.
    + destruct (called_tools (msg_tool_calls (choice_message first)))
        as [|call rest] eqn:Ht.
      * eexists. split; [eapply generate_text; eassumption|]. split; [reflexivity|].
        destruct (reply_for_nonempty (msg_content (choice_message first))
                    "I've processed your request." eq_refl) as [H|(text & _ & H)];
          [left; exact H | right; eauto].
      * destruct (json_loads (fn_arguments (tc_function call))) as [args|e] eqn:Hj.
        -- eexists. split; [eapply generate_tool; eassumption|].
           split; [apply registry_nonempty|].
           destruct (reply_for_nonempty (msg_content (choice_message first))
                       "Certainly! Here is the information you requested." eq_refl)
             as [H|(text & _ & H)];
             [left; exact H | right; eauto].
        -- eexists. split; [eapply generate_tool_malformed; eassumption|].
           split; [|left]; reflexivity.
  - eexists. split; [eapply generate_raised; eassumption|]. split; [|left]; reflexivity.
Qed.

(** ** The gatherer *)

Lemma gather_raised create q h e :
  create (gather_request q h) = Raised e ->
  gather_real_time_data create q h
  = Returned (Some ("Error: Could not gather information due to an internal error: "
                    +:+ exn_str e)).
Proof.
  intros H. unfold gather_real_time_data, try_except, mbind, outcome_bind.
  rewrite H. reflexivity.
Qed.

Lemma gather_some create q h :
  exists text, gather_real_time_data create q h = Returned (Some text).
Proof.
  unfold gather_real_time_data, try_except, mbind, outcome_bind, mret, outcome_ret.
  destruct (create (gather_request q h)) as [response|e]; [|eauto].
  destruct (choices response) as [|first others]; simpl; [eauto|].
  destruct (msg_content (choice_message first)); simpl; eauto.
Qed.

(** Without its log lines the gatherer returns, and what it returns is a
    string; when the provider call raises [e], the string is the error marker
    followed by [str(e)]. *)
Theorem gather_returns_string (create : provider) (q : string) (h : list message) :
  (exists text, gather_real_time_data create q h = Returned (Some text))
  /\ match create (gather_request q h) with
     | Raised e =>
         exists text,
           gather_real_time_data create q h = Returned (Some text)
           /\ text = ("Error: Could not gather information due to an internal error: "
                      +:+ exn_str e)%string
           /\ Str.startswith text "Error:" = true
     | Returned _ => True
     end.
Proof.
  split; [apply gather_some|].
  destruct (create (gather_request q h)) as [response|e] eqn:Hr; [exact I|].
  eexists. split; [apply gather_raised; exact Hr|]. split; reflexivity.
Qed.

Example gather_content_none :
  gather_real_time_data (fun _ => Returned (Response [Choice (ResponseMessage None None)]))
    "who leads the league?" []
  = Returned (Some "Error: Could not gather information due to an internal error: 'NoneType' object is not subscriptable"%string).
Proof. vm_compute. reflexivity. Qed.

(** ** The orchestrator *)

(** Without its log lines the orchestrator never raises, and its result has
    a component type; the reply is empty only in the case above. *)
Lemma process_user_query_returns (json_loads : string -> outcome json)
    (create : provider) (q : string) (h : list message) :
  exists r,
    process_user_query json_loads create q h = Returned r
    /\ Str.nonempty (component_type (ui_data r)) = true
    /\ (Str.nonempty (reply r) = true
        \/ exists text, Str.nonempty text = true /\ strip_links text = EmptyString).
Proof.
  unfold process_user_query. destruct (gather_some create q h) as [text ->].
  apply generate_returns.
Qed.

(** C1: the code does not do what the claim says.  The composer's answer
    [[](http://x)] is not empty, so no fallback reply is chosen, and link
    stripping leaves the empty reply. *)
Theorem empty_reply_after_stripping :
  process_user_query sample_loads
    (sample_provider (Returned (text_response "Arsenal lead the league."))
                     (Returned (text_response "[](http://x)")))
    "who leads the league?" []
  = Returned {| reply := EmptyString;
                ui_data := {| component_type := "generic_text"; data := JDict [] |} |}.
Proof. vm_compute. reflexivity. Qed.

(** ** The history store *)

Section HistoryFacts.

Variable json_loads : string -> outcome json.

(** A call leaves the histories of the other users alone. *)
Lemma serve_other (store : gmap string (list message)) (c : chat_call) (user : string) :
  user_id (call_request c) <> user -> serve json_loads store c !! user = store !! user.
Proof.
  intros Hne. unfold serve, handle_chat.
  destruct (negb (Str.nonempty (query (call_request c)))); [reflexivity|].
  destruct (process_user_query _ _ _ _); simpl; [|reflexivity].
  apply lookup_insert_ne, Hne.
Qed.

(** A successful turn appends its two entries and keeps the last
    [HISTORY_LIMIT]. *)
Lemma serve_exchange (store : gmap string (list message)) (c : chat_call) (t : string * string) :
  exchange json_loads store c = Some t ->
  serve json_loads store c !! user_id (call_request c)
  = Some (Str.last_n HISTORY_LIMIT
            (default [] (store !! user_id (call_request c)) ++ turn_messages t)).
Proof.
  unfold exchange, serve, handle_chat.
  destruct (negb (Str.nonempty (query (call_request c)))); [discriminate|].
  destruct (process_user_query _ _ _ _) as [r|e]; [|discriminate].
  destruct (Str.nonempty (reply r)); [|discriminate].
  intros [= <-]. simpl. rewrite lookup_insert_eq, <- app_assoc. reflexivity.
Qed.

Lemma turn_messages_length (exchanges : list (string * string)) :
  length (concat (map turn_messages exchanges)) = 2 * length exchanges.
Proof. induction exchanges as [|t ts IH]; simpl; [reflexivity | rewrite IH; lia]. Qed.

(** The stored history is the tail of everything the user's turns appended. *)
Lemma serve_all_history (user : string) (calls : list chat_call) :
  forall (store : gmap string (list message)) (exchanges : list (string * string)),
    length (default [] (store !! user)) <= HISTORY_LIMIT ->
    turns_of json_loads user store calls = map Some exchanges ->
    default [] (serve_all json_loads store calls !! user)
    = Str.last_n HISTORY_LIMIT
        (default [] (store !! user) ++ concat (map turn_messages exchanges)).
Proof.
  induction calls as [|c calls IH]; intros store exchanges Hlen Hturns; simpl in *.
  - destruct exchanges; [|discriminate]. simpl.
    rewrite app_nil_r, StrFacts.last_n_short; auto.
  - destruct (String.eqb_spec (user_id (call_request c)) user) as [Hu|Hu].
    + destruct exchanges as [|t ts]; [discriminate|].
      simpl in Hturns. injection Hturns as Ht Hts.
      pose proof (serve_exchange store c t Ht) as Hs. rewrite Hu in Hs.
      rewrite (IH _ ts); [| | exact Hts]; rewrite Hs; simpl.
      * rewrite StrFacts.last_n_app, <- app_assoc. reflexivity.
      * rewrite StrFacts.last_n_length. lia.
    + simpl in Hturns. rewrite (IH _ exchanges); [| | exact Hturns];
        rewrite (serve_other _ _ _ Hu); auto.
Qed.

End HistoryFacts.

(** C9: when the calls of a user are [M] successful turns, in whatever order
    the calls of other users come between them, the history stored for the
    user is the last [HISTORY_LIMIT] entries of the turns' entries (each
    turn's query, then its reply) in the order served; it has
    [min (2 * M) HISTORY_LIMIT] entries, never more than [HISTORY_LIMIT].
    This holds for every [M], so for [M > HISTORY_LIMIT / 2] too. *)
Theorem history_after_successful_turns (json_loads : string -> outcome json)
    (user : string) (calls : list chat_call) (exchanges : list (string * string)) :
  turns_of json_loads user ∅ calls = map Some exchanges ->
  default [] (serve_all json_loads ∅ calls !! user)
  = Str.last_n HISTORY_LIMIT (concat (map turn_messages exchanges))
  /\ length (default [] (serve_all json_loads ∅ calls !! user))
     = Nat.min (2 * length exchanges) HISTORY_LIMIT
  /\ length (default [] (serve_all json_loads ∅ calls !! user)) <= HISTORY_LIMIT.
Proof.
  intros Hturns.
  pose proof (serve_all_history json_loads user calls ∅ exchanges) as H.
  rewrite lookup_empty in H. simpl in H. specialize (H (Nat.le_0_l _) Hturns).
  rewrite H, StrFacts.last_n_length, turn_messages_length.
  split; [reflexivity|]. split; lia.
Qed.

Lemma history_after_successful_turns_witness :
  default [] (serve_all sample_loads ∅ sample_calls !! "ann")
  = Str.last_n HISTORY_LIMIT (concat (map turn_messages sample_exchanges))
  /\ length (default [] (serve_all sample_loads ∅ sample_calls !! "ann"))
     = Nat.min (2 * length sample_exchanges) HISTORY_LIMIT
  /\ length (default [] (serve_all sample_loads ∅ sample_calls !! "ann")) <= HISTORY_LIMIT.
Proof.
  apply (history_after_successful_turns sample_loads "ann" sample_calls sample_exchanges).
  vm_compute. reflexivity.
Defined.

Example history_of_ann :
  default [] (serve_all sample_loads ∅ sample_calls !! "ann")
  = [ Message "user" "hello 2"; Message "assistant" "Hello! I am GameNerd.";
      Message "user" "hello 3"; Message "assistant" "Hello! I am GameNerd.";
      Message "user" "hello 4"; Message "assistant" "Hello! I am GameNerd.";
      Message "user" "hello 5"; Message "assistant" "Hello! I am GameNerd.";
      Message "user" "hello 6"; Message "assistant" "Hello! I am GameNerd." ].
Proof. vm_compute. reflexivity. Qed.

(** An empty reply leaves the user's turn in the history without an
    assistant's turn after it. *)
Example history_after_empty_reply :
  serve sample_loads ∅
    (ChatCall (sample_provider (Returned (text_response "Arsenal lead the league."))
                               (Returned (text_response "[](http://x)")))
              {| user_id := "ann"; query := "who leads the league?" |})
  !! "ann"
  = Some [Message "user" "who leads the league?"].
Proof. vm_compute. reflexivity. Qed.

(** * Further properties of the code *)

(** ** What link stripping does to a text *)

Module ReLinks.
Import Re ReFacts.

Lemma lits_inv {R} cs (k : cont R) s r :
  lits cs k s = Some r -> exists s', s = cs ++ s' /\ k s' = Some r.
Proof.
  revert s. induction cs as [|c cs IH]; intros s; simpl.
  - intros H. exists s. auto.
  - intros H. apply lit_inv in H as (s1 & -> & H).
    apply IH in H as (s' & -> & H). exists s'. auto.
Qed.

Lemma starts_here n s : Str.starts n (n ++ s) = true.
Proof.
  induction n as [|c n IH]; simpl; [reflexivity|].
  rewrite Ascii.eqb_refl. exact IH.
Qed.

Lemma occurs_here n s : Str.occurs n (n ++ s) = true.
Proof. destruct n; simpl; [destruct s; reflexivity|]. rewrite Ascii.eqb_refl, starts_here. reflexivity. Qed.

Lemma occurs_cons n c s : Str.occurs n s = true -> Str.occurs n (c :: s) = true.
Proof. intros H. simpl. rewrite H. apply orb_true_r. Qed.

Lemma occurs_app_r n a s : Str.occurs n s = true -> Str.occurs n (a ++ s) = true.
Proof. intros H. induction a as [|c a IH]; [exact H|]. apply occurs_cons, IH. Qed.

(** A match needs the text [](http] somewhere. *)
Lemma link_pattern_marker s text url rest :
  link_pattern s = Some (text, (url, rest)) ->
  Str.occurs (Str.chars "](http") s = true.
Proof.
  intros H. apply link_pattern_inv in H as (t & -> & H).
  apply lazy_dots_inv in H as (s' & -> & H & _).
  apply lits_inv in H as (s'' & -> & _).
  apply occurs_cons, occurs_app_r, occurs_here.
Qed.

Lemma sub_without_marker s :
  Str.occurs (Str.chars "](http") s = false -> sub s = s.
Proof.
  induction s as [|c s IH]; [reflexivity|].
  intros H. assert (link_pattern (c :: s) = None) as Hp.
  { destruct (link_pattern (c :: s)) as [[text [url rest]]|] eqn:Hp; [|reflexivity].
    apply link_pattern_marker in Hp. congruence. }
  rewrite (sub_skip _ _ Hp). f_equal. apply IH.
  destruct (Str.occurs (Str.chars "](http") s) eqn:Hs; [|reflexivity].
  apply (occurs_cons _ c) in Hs. congruence.
Qed.

(** What a match takes from the input: the bracket, the text, and more. *)
Lemma link_pattern_length s text url rest :
  link_pattern s = Some (text, (url, rest)) ->
  length text + length rest < length s.
Proof.
  intros H. apply link_pattern_inv in H as (t & -> & H).
  apply lazy_dots_inv in H as (s' & -> & H & _).
  apply link_tail_shrinks in H. simpl in *. rewrite length_app. lia.
Qed.

Lemma sub_length s : length (sub s) <= length s.
Proof.
  induction s as [| c s Hp IH | s text url rest Hp IH] using scan_ind.
  - reflexivity.
  - rewrite (sub_skip _ _ Hp). simpl. lia.
  - rewrite (sub_link _ _ _ _ Hp), length_app.
    apply link_pattern_length in Hp. lia.
Qed.

Lemma sub_same_length s : length (sub s) = length s -> sub s = s.
Proof.
  induction s as [| c s Hp IH | s text url rest Hp IH] using scan_ind.
  - reflexivity.
  - rewrite (sub_skip _ _ Hp). simpl. intros [= H]. f_equal. auto.
  - rewrite (sub_link _ _ _ _ Hp), length_app.
    apply link_pattern_length in Hp. pose proof (sub_length rest). lia.
Qed.

(** [.*?] stops at the first place where the rest of the pattern matches. *)
Lemma lazy_dots_exact {R} (k : cont R) text s r :
  forallb dot text = true ->
  (forall c rest, In c text -> k (c :: rest) = None) ->
  k s = Some r ->
  lazy_dots k (text ++ s) = Some (text, r).
Proof.
  intros Hd Hk Hs. induction text as [|c text IH]; simpl.
  - destruct s; simpl; rewrite Hs; reflexivity.
  - simpl in Hd. apply andb_prop in Hd as [Hc Hd].
    rewrite (Hk c (text ++ s)) by (left; reflexivity). rewrite Hc.
    rewrite IH; [reflexivity | exact Hd |].
    intros c' rest Hin. apply Hk. right. exact Hin.
Qed.

Lemma without_In c text x : without c text = true -> In x text -> x <> c.
Proof.
  unfold without. intros H Hin ->. apply negb_true_iff in H.
  assert (existsb (Ascii.eqb c) text = true) as H'; [|congruence].
  apply existsb_exists. exists c. split; [exact Hin | apply Ascii.eqb_refl].
Qed.

Lemma link_tail_url secure url post :
  forallb dot url = true ->
  without ")"%char url = true ->
  link_tail (Str.chars "](" ++ scheme secure ++ url ++ ")"%char :: post)
  = Some (url, post).
Proof.
  intros Hd Hu.
  assert (lazy_dots (lit ")"%char Some) (url ++ ")"%char :: post) = Some (url, post)) as H.
  { apply lazy_dots_exact; [exact Hd | | reflexivity].
    intros c rest Hin. apply lit_other. eapply without_In; eassumption. }
  destruct secure; cbn; rewrite H; reflexivity.
Qed.

Lemma link_pattern_link secure text url post :
  forallb dot text = true -> without "]"%char text = true ->
  forallb dot url = true -> without ")"%char url = true ->
  link_pattern ("["%char :: text ++ Str.chars "](" ++ scheme secure ++ url ++ ")"%char :: post)
  = Some (text, (url, post)).
Proof.
  intros Hd Ht Hdu Hu. rewrite link_pattern_cons.
  apply lazy_dots_exact; [exact Hd | | apply link_tail_url; assumption].
  intros c rest Hin. unfold link_tail. cbn [Str.chars list_ascii_of_string lits].
  apply lit_other. eapply without_In; eassumption.
Qed.

End ReLinks.

Lemma chars_length s : length (Str.chars s) = String.length s.
Proof. induction s as [|c s IH]; simpl; [reflexivity | now rewrite IH]. Qed.

Lemma of_chars_length l : String.length (Str.of_chars l) = length l.
Proof. induction l as [|c l IH]; simpl; [reflexivity | now rewrite IH]. Qed.

Lemma of_chars_chars s : Str.of_chars (Str.chars s) = s.
Proof. apply string_of_list_ascii_of_string. Qed.

Lemma of_chars_app a b : Str.of_chars (a ++ b) = Str.of_chars a +:+ Str.of_chars b.
Proof. induction a as [|c a IH]; simpl; [reflexivity | now rewrite IH]. Qed.

(** X1: link stripping only removes text: the result is never longer than
    the input, and when it is as long, it is the input. *)
Theorem strip_links_shortens (s : string) :
  String.length (strip_links s) <= String.length s
  /\ (String.length (strip_links s) = String.length s -> strip_links s = s).
Proof.
  unfold strip_links. rewrite of_chars_length, <- chars_length. split.
  - apply ReLinks.sub_length.
  - intros H%ReLinks.sub_same_length. rewrite H. apply of_chars_chars.
Qed.

(** X2: a text in which [](http] does not occur is left as it is. *)
Theorem strip_links_unchanged (s : string) :
  Str.contains "](http" s = false -> strip_links s = s.
Proof.
  intros H. unfold strip_links. rewrite ReLinks.sub_without_marker by exact H.
  apply of_chars_chars.
Qed.

Lemma strip_links_unchanged_witness :
  strip_links "[1] see (note) and http://x.y" = "[1] see (note) and http://x.y"%string.
Proof. apply strip_links_unchanged. vm_compute. reflexivity. Defined.

(** X3: the first link of a text is replaced by its link text, and the
    stripping goes on behind it: for a link text on one line without a
    closing bracket, a URL on one line without a closing parenthesis, and no
    opening bracket before the link. *)
Theorem strip_links_link (secure : bool) (pre text url post : string) :
  Re.plain (Str.chars pre) = true ->
  one_line text = true -> without "]"%char (Str.chars text) = true ->
  one_line url = true -> without ")"%char (Str.chars url) = true ->
  strip_links (pre +:+ markdown_link secure text url +:+ post)
  = pre +:+ text +:+ strip_links post.
Proof.
  intros Hpre Ht Ht' Hu Hu'. unfold strip_links, markdown_link.
  rewrite !StrFacts.chars_append, StrFacts.chars_of_chars.
  rewrite (ReFacts.sub_plain _ _ Hpre).
  change (Str.chars "[") with ["["%char]. change (Str.chars ")") with [")"%char].
  rewrite <- !app_assoc. simpl app.
  pose proof (ReLinks.link_pattern_link secure _ _ (Str.chars post) Ht Ht' Hu Hu') as Hp.
  simpl app in Hp. rewrite (ReFacts.sub_link _ _ _ _ Hp).
  rewrite !of_chars_app, !of_chars_chars. reflexivity.
Qed.

Lemma strip_links_link_witness :
  strip_links ("According to " +:+ markdown_link true "BBC Sport" "www.bbc.com/sport"
               +:+ ", Arsenal lead.")
  = ("According to " +:+ "BBC Sport" +:+ strip_links ", Arsenal lead.")%string.
Proof. apply strip_links_link; vm_compute; reflexivity. Defined.

(** ** What the two calls are sent *)

Lemma contains_here n s : Str.contains n (n +:+ s) = true.
Proof. unfold Str.contains. rewrite StrFacts.chars_append. apply ReLinks.occurs_here. Qed.

Lemma contains_String n c s : Str.contains n s = true -> Str.contains n (String c s) = true.
Proof. apply ReLinks.occurs_cons. Qed.

Lemma contains_append_r n a s : Str.contains n s = true -> Str.contains n (a +:+ s) = true.
Proof.
  unfold Str.contains. rewrite StrFacts.chars_append. apply ReLinks.occurs_app_r.
Qed.

Lemma starts_app_l n a b : Str.starts n a = true -> Str.starts n (a ++ b) = true.
Proof.
  revert a. induction n as [|c n IH]; intros [|d a]; simpl; try reflexivity; try discriminate.
  intros [Hc Hn]%andb_prop. rewrite Hc. simpl. auto.
Qed.

Lemma occurs_app_l n a b : Str.occurs n a = true -> Str.occurs n (a ++ b) = true.
Proof.
  induction a as [|c a IH]; simpl.
  - rewrite orb_false_r. destruct n; [|discriminate]. intros _. destruct b; reflexivity.
  - intros [H|H]%orb_prop; apply orb_true_iff.
    + left. apply (starts_app_l _ (c :: a)), H.
    + right. apply IH, H.
Qed.

Lemma contains_append_l n a s : Str.contains n a = true -> Str.contains n (a +:+ s) = true.
Proof.
  unfold Str.contains. rewrite StrFacts.chars_append. apply occurs_app_l.
Qed.

Ltac find_in_text :=
  first [ apply contains_here
        | apply contains_String; find_in_text
        | apply contains_append_l; find_in_text
        | apply contains_append_r; find_in_text ].

(** X4: the text handed to the model in the presentation branch carries the
    user's query and the gathered data as they are. *)
Theorem data_block_verbatim (user_query gathered_data : string) :
  Str.contains user_query (present_user_content user_query gathered_data) = true
  /\ Str.contains gathered_data (present_user_content user_query gathered_data) = true.
Proof.
  unfold present_user_content, Str.dquote. cbn [Str.unlines String.append].
  split; find_in_text.
Qed.

Lemma last_n_suffix {A} n (l : list A) :
  exists older, l = older ++ Str.last_n n l /\ length (Str.last_n n l) = Nat.min (length l) n.
Proof.
  exists (take (length l - n) l). split.
  - unfold Str.last_n. symmetry. apply take_drop.
  - apply StrFacts.last_n_length.
Qed.

(** X5: both calls see the same window of the conversation: its most recent
    entries, six at most, between the system prompt and the user's query.
    The presentation branch sends no history at all. *)
Theorem context_window (q : string) (h : list message) (g : string) :
  exists older window,
    h = older ++ window
    /\ length window = Nat.min (length h) 6
    /\ req_messages (gather_request q h)
       = Message "system" GATHER_SYSTEM_PROMPT :: window ++ [Message "user" q]
    /\ req_messages (final_request q h g)
       = if no_data g
         then Message "system" CHAT_SYSTEM_PROMPT :: window ++ [Message "user" q]
         else [ Message "system" PRESENT_SYSTEM_PROMPT;
                Message "user" (present_user_content q g) ].
Proof.
  destruct (last_n_suffix 6 h) as (older & Hh & Hlen).
  exists older, (Str.last_n 6 h).
  split; [exact Hh|]. split; [exact Hlen|]. split; reflexivity.
Qed.

(** ** The gatherer and the composer together *)

(** X6: what the gatherer returns is the content of the provider's first
    message as it came, or else a text that starts with [Error:]. *)
Theorem gather_result_origin (create : provider) (q : string) (h : list message) :
  exists text,
    gather_real_time_data create q h = Returned (Some text)
    /\ (Str.startswith text "Error:" = true
        \/ exists response first others,
             create (gather_request q h) = Returned response
             /\ choices response = first :: others
             /\ msg_content (choice_message first) = Some text).
Proof.
  unfold gather_real_time_data, try_except, mbind, outcome_bind, mret, outcome_ret.
  destruct (create (gather_request q h)) as [response|e] eqn:Hr.
  - destruct (choices response) as [|first others] eqn:Hch; simpl.
    + eexists. split; [reflexivity | left; reflexivity].
    + destruct (msg_content (choice_message first)) as [text|] eqn:Hc; simpl.
      * exists text. split; [reflexivity|]. right. eauto 6.
      * eexists. split; [reflexivity | left; reflexivity].
  - eexists. split; [reflexivity | left; reflexivity].
Qed.

Lemma error_marker_no_data detail :
  no_data ("Error: Could not gather information due to an internal error: " +:+ detail)
  = true.
Proof. unfold no_data. apply orb_true_iff. right. reflexivity. Qed.

(** X7: when the gathering call fails, the orchestrator goes on: the composer
    is called with the error marker as its data, and asks the model for a
    conversational reply to the query in its window of the history. *)
Theorem gather_failure_goes_on (json_loads : string -> outcome json) (create : provider)
    (q : string) (h : list message) (e : exn) :
  create (gather_request q h) = Raised e ->
  process_user_query json_loads create q h
  = generate_final_response_with_tools json_loads create q h
      ("Error: Could not gather information due to an internal error: " +:+ exn_str e)
  /\ req_messages
       (final_request q h
          ("Error: Could not gather information due to an internal error: " +:+ exn_str e))
     = [Message "system" CHAT_SYSTEM_PROMPT] ++ Str.last_n 6 h ++ [Message "user" q].
Proof.
  intros Hr. split.
  - unfold process_user_query. rewrite (gather_raised _ _ _ _ Hr). reflexivity.
  - unfold final_request, final_messages. simpl req_messages.
    rewrite error_marker_no_data. reflexivity.
Qed.

Lemma gather_failure_goes_on_witness :
  process_user_query sample_loads
    (sample_provider (Raised connection_error)
                     (Returned (text_response "Sorry, I could not look that up.")))
    "who leads the league?" []
  = generate_final_response_with_tools sample_loads
      (sample_provider (Raised connection_error)
                       (Returned (text_response "Sorry, I could not look that up.")))
      "who leads the league?" []
      ("Error: Could not gather information due to an internal error: "
       +:+ exn_str connection_error)
  /\ req_messages
       (final_request "who leads the league?" []
          ("Error: Could not gather information due to an internal error: "
           +:+ exn_str connection_error))
     = [Message "system" CHAT_SYSTEM_PROMPT] ++ Str.last_n 6 []
       ++ [Message "user" "who leads the league?"].
Proof.
  apply (gather_failure_goes_on sample_loads
           (sample_provider (Raised connection_error)
                            (Returned (text_response "Sorry, I could not look that up.")))
           "who leads the league?" [] connection_error).
  reflexivity.
Defined.

Lemma registry_known name :
  In (dict_get TOOL_NAME_TO_COMPONENT_TYPE name GENERIC_TEXT) known_component_types.
Proof.
  unfold dict_get. destruct (TOOL_NAME_TO_COMPONENT_TYPE !! name) as [v|] eqn:Hv;
    [|left; reflexivity].
  apply elem_of_list_to_map_2 in Hv. unfold component_types in Hv.
  repeat (apply elem_of_cons in Hv as [[= _ ->]|Hv]; [simpl; tauto|]).
  apply elem_of_nil in Hv. contradiction.
Qed.

Lemma generate_known (json_loads : string -> outcome json) (create : provider)
    (q : string) (h : list message) (g : string) :
  exists r,
    generate_final_response_with_tools json_loads create q h g = Returned r
    /\ In (component_type (ui_data r)) known_component_types.
Proof.
  destruct (create (final_request q h g)) as [response|e] eqn:Hr.
  - destruct (choices response) as [|first others] eqn:Hch.
    + eexists. split; [eapply generate_no_choice; eassumption | left; reflexivity].
    + destruct (called_tools (msg_tool_calls (choice_message first)))
        as [|call rest] eqn:Ht.
      * eexists. split; [eapply generate_text; eassumption | left; reflexivity].
      * destruct (json_loads (fn_arguments (tc_function call))) as [args|e] eqn:Hj.
        -- eexists. split; [eapply generate_tool; eassumption | apply registry_known].
        -- eexists. split; [eapply generate_tool_malformed; eassumption | left; reflexivity].
  - eexists. split; [eapply generate_raised; eassumption | left; reflexivity].
Qed.

(** Without its log lines the orchestrator returns whatever the provider
    and the decoder do, and with a component type of the known ones. *)
Lemma process_user_query_known (json_loads : string -> outcome json)
    (create : provider) (q : string) (h : list message) :
  exists r,
    process_user_query json_loads create q h = Returned r
    /\ In (component_type (ui_data r)) known_component_types.
Proof.
  unfold process_user_query. destruct (gather_some create q h) as [text ->].
  apply generate_known.
Qed.

(** X9: which reply the composer gives when nothing fails: the model's text
    with its links stripped when there is a text; otherwise one of two fixed
    sentences, by whether a tool was called.  Without a tool call the payload
    stays the default one. *)
Theorem reply_selection (json_loads : string -> outcome json) (create : provider)
    (q : string) (h : list message) (g : string)
    (response : response) (first : choice) (others : list choice) (args : json) :
  create (final_request q h g) = Returned response ->
  choices response = first :: others ->
  match called_tools (msg_tool_calls (choice_message first)) with
  | call :: _ => json_loads (fn_arguments (tc_function call)) = Returned args
  | [] => True
  end ->
  exists r,
    generate_final_response_with_tools json_loads create q h g = Returned r
    /\ reply r
       = match msg_content (choice_message first),
               called_tools (msg_tool_calls (choice_message first)) with
         | Some (String c text), _ => strip_links (String c text)
         | _, _ :: _ => "Certainly! Here is the information you requested."%string
         | _, [] => "I've processed your request."%string
         end
    /\ match called_tools (msg_tool_calls (choice_message first)) with
       | _ :: _ => True
       | [] => ui_data r = {| component_type := "generic_text"; data := JDict [] |}
       end.
Proof.
  intros Hr Hch Hj.
  destruct (called_tools (msg_tool_calls (choice_message first))) as [|call rest] eqn:Ht.
  - eexists. split; [eapply generate_text; eassumption|]. split; [|reflexivity].
    simpl. unfold reply_for. destruct (msg_content (choice_message first)) as [[|c text]|];
      reflexivity.
  - eexists. split; [eapply generate_tool; eassumption|]. split; [|exact I].
    simpl. unfold reply_for. destruct (msg_content (choice_message first)) as [[|c text]|];
      reflexivity.
Qed.

Lemma reply_selection_witness :
  exists r,
    generate_final_response_with_tools sample_loads
      (fun _ => Returned (tool_response None
                            [ToolCall (FunctionCall "get_team_news" "{}")]))
      "any news?" [] "Arsenal signed a striker." = Returned r
    /\ reply r = "Certainly! Here is the information you requested."%string
    /\ True.
Proof.
  apply (reply_selection sample_loads
           (fun _ => Returned (tool_response None
                                 [ToolCall (FunctionCall "get_team_news" "{}")]))
           "any news?" [] "Arsenal signed a striker."
           (tool_response None [ToolCall (FunctionCall "get_team_news" "{}")])
           (Choice (ResponseMessage None
                      (Some [ToolCall (FunctionCall "get_team_news" "{}")])))
           [] (JDict []));
    reflexivity.
Defined.

(** ** The endpoint *)

Section EndpointFacts.

Variable json_loads : string -> outcome json.

Lemma handle_chat_accepted (create : provider)
    (store : gmap string (list message)) (request : ChatRequest) :
  Str.nonempty (query request) = true ->
  exists r,
    process_user_query json_loads create (query request)
      (default [] (store !! user_id request)) = Returned r
    /\ handle_chat json_loads create store request
       = (<[user_id request :=
              Str.last_n HISTORY_LIMIT
                (default [] (store !! user_id request)
                 ++ Message "user" (query request)
                    :: (if Str.nonempty (reply r)
                        then [Message "assistant" (reply r)] else []))]> store,
          Answer {| response_reply := reply r; response_ui_data := ui_data r |}).
Proof.
  intros Hq.
  destruct (process_user_query_returns json_loads create (query request)
              (default [] (store !! user_id request))) as (r & Hr & _).
  exists r. split; [exact Hr|].
  unfold handle_chat. rewrite Hq, Hr. simpl.
  destruct (Str.nonempty (reply r)); [rewrite <- app_assoc|]; reflexivity.
Qed.

Lemma serve_lookup (store : gmap string (list message)) (c : chat_call) (user : string) :
  serve json_loads store c !! user = store !! user
  \/ exists r,
       Str.nonempty (query (call_request c)) = true
       /\ user_id (call_request c) = user
       /\ serve json_loads store c !! user
          = Some (Str.last_n HISTORY_LIMIT
                    (default [] (store !! user)
                     ++ Message "user" (query (call_request c))
                        :: (if Str.nonempty (reply r)
                            then [Message "assistant" (reply r)] else []))).
Proof.
  destruct (String.eqb_spec (user_id (call_request c)) user) as [Hu|Hu];
    [|left; apply serve_other, Hu].
  destruct (Str.nonempty (query (call_request c))) eqn:Hq.
  - right. destruct (handle_chat_accepted (call_provider c) store (call_request c) Hq)
      as (r & _ & Hh).
    exists r. split; [reflexivity|]. split; [exact Hu|].
    unfold serve. rewrite Hh. simpl. rewrite Hu. apply lookup_insert_eq.
  - left. unfold serve, handle_chat. rewrite Hq. reflexivity.
Qed.

Lemma serve_all_cons store c calls :
  serve_all json_loads store (c :: calls)
  = serve_all json_loads (serve json_loads store c) calls.
Proof. reflexivity. Qed.

Lemma serve_cap store c user :
  length (default [] (store !! user)) <= HISTORY_LIMIT ->
  length (default [] (serve json_loads store c !! user)) <= HISTORY_LIMIT.
Proof.
  intros H. destruct (serve_lookup store c user) as [->|(r & _ & _ & ->)]; [exact H|].
  simpl. rewrite StrFacts.last_n_length. lia.
Qed.

Lemma forallb_last_n {A} (f : A -> bool) n l :
  forallb f l = true -> forallb f (Str.last_n n l) = true.
Proof.
  intros H. rewrite <- (take_drop (length l - n) l), forallb_app in H.
  apply andb_prop in H as [_ H]. exact H.
Qed.

Lemma serve_turns_ok store c user :
  forallb stored_turn_ok (default [] (store !! user)) = true ->
  forallb stored_turn_ok (default [] (serve json_loads store c !! user)) = true.
Proof.
  intros H. destruct (serve_lookup store c user) as [->|(r & Hq & _ & ->)]; [exact H|].
  simpl. apply forallb_last_n. rewrite forallb_app, H. simpl.
  unfold stored_turn_ok at 1. simpl. rewrite Hq. simpl.
  destruct (Str.nonempty (reply r)) eqn:Hr; [|reflexivity].
  simpl. unfold stored_turn_ok. simpl. rewrite Hr. reflexivity.
Qed.

(** What a call does to a user's history depends on that history alone. *)
Lemma serve_local store1 store2 c user :
  store1 !! user = store2 !! user ->
  serve json_loads store1 c !! user = serve json_loads store2 c !! user.
Proof.
  intros H. destruct (String.eqb_spec (user_id (call_request c)) user) as [Hu|Hu].
  - unfold serve, handle_chat. rewrite Hu, H.
    destruct (negb (Str.nonempty (query (call_request c)))); [exact H|].
    destruct (process_user_query _ _ _ _); simpl; [|exact H].
    rewrite !lookup_insert_eq. reflexivity.
  - rewrite !serve_other by exact Hu. exact H.
Qed.

End EndpointFacts.

(** X10: an empty query is refused with status 400 before anything else
    happens: the histories stay as they are. *)
Theorem empty_query_refused (json_loads : string -> outcome json) (create : provider)
    (store : gmap string (list message)) (request : ChatRequest) :
  query request = EmptyString ->
  handle_chat json_loads create store request
  = (store, HTTPException 400 "Query cannot be empty").
Proof. intros H. unfold handle_chat. rewrite H. reflexivity. Qed.

Lemma empty_query_refused_witness :
  handle_chat sample_loads greeter ∅ {| user_id := "ann"; query := EmptyString |}
  = (∅, HTTPException 400 "Query cannot be empty").
Proof. apply empty_query_refused. reflexivity. Defined.

(** X12: an accepted call puts its turn at the end of the user's history:
    the query, and after it the reply when the reply is not empty. *)
Theorem accepted_turn_stored_last (json_loads : string -> outcome json) (create : provider)
    (store : gmap string (list message)) (request : ChatRequest) :
  query request <> EmptyString ->
  exists r older,
    process_user_query json_loads create (query request)
      (default [] (store !! user_id request)) = Returned r
    /\ fst (handle_chat json_loads create store request) !! user_id request
       = Some (older ++ Message "user" (query request)
                 :: (if Str.nonempty (reply r)
                     then [Message "assistant" (reply r)] else [])).
Proof.
  intros Hq.
  destruct (handle_chat_accepted json_loads create store request) as (r & Hr & Hh).
  { destruct (query request); [contradiction | reflexivity]. }
  exists r. rewrite Hh. simpl. rewrite lookup_insert_eq.
  set (h := default [] (store !! user_id request)).
  set (turn := Message "user" (query request) :: _).
  exists (Str.last_n (HISTORY_LIMIT - length turn) h). split; [exact Hr|]. f_equal.
  assert (length turn <= HISTORY_LIMIT) as Hlen.
  { unfold turn, HISTORY_LIMIT. destruct (Str.nonempty (reply r)); simpl; lia. }
  unfold Str.last_n. rewrite length_app.
  rewrite drop_app_le by lia. f_equal. f_equal. lia.
Qed.

Lemma accepted_turn_stored_last_witness :
  exists r older,
    process_user_query sample_loads greeter "hello"
      (default [] ((∅ : gmap string (list message)) !! "ann")) = Returned r
    /\ fst (handle_chat sample_loads greeter ∅ {| user_id := "ann"; query := "hello" |})
       !! "ann"
       = Some (older ++ Message "user" "hello"
                 :: (if Str.nonempty (reply r)
                     then [Message "assistant" (reply r)] else [])).
Proof.
  apply (accepted_turn_stored_last sample_loads greeter ∅
           {| user_id := "ann"; query := "hello" |}).
  discriminate.
Defined.

(** X13: no history ever exceeds [HISTORY_LIMIT]: whatever the calls, their
    users and the provider's answers, a store whose histories are within the
    limit stays so. *)
Theorem history_cap_kept (json_loads : string -> outcome json)
    (calls : list chat_call) (store : gmap string (list message)) :
  (forall user, length (default [] (store !! user)) <= HISTORY_LIMIT) ->
  forall user, length (default [] (serve_all json_loads store calls !! user)) <= HISTORY_LIMIT.
Proof.
  revert store. induction calls as [|c calls IH]; intros store H user; [apply H|].
  rewrite serve_all_cons. apply IH. intros u. apply serve_cap, H.
Qed.

Lemma history_cap_kept_witness :
  length (default [] (serve_all sample_loads ∅ sample_calls !! "ann")) <= HISTORY_LIMIT.
Proof.
  apply (history_cap_kept sample_loads sample_calls ∅).
  intros user. rewrite lookup_empty. simpl. lia.
Defined.

(** X14: every entry the endpoint stores is a user's or the assistant's and
    has content: an empty query is not stored, an empty reply neither. *)
Theorem stored_turns_well_formed (json_loads : string -> outcome json)
    (calls : list chat_call) (user : string) :
  forallb stored_turn_ok (default [] (serve_all json_loads ∅ calls !! user)) = true.
Proof.
  assert (forall store,
             (forall u, forallb stored_turn_ok (default [] (store !! u)) = true) ->
             forall u, forallb stored_turn_ok
                         (default [] (serve_all json_loads store calls !! u)) = true) as H.
  { induction calls as [|c calls IH]; intros store H u; [apply H|].
    rewrite serve_all_cons. apply IH. intros u'. apply serve_turns_ok, H. }
  apply H. intros u. rewrite lookup_empty. reflexivity.
Qed.

(** X15: a user's history is the work of that user's calls alone: the calls
    of other users, wherever they come in between, change nothing of it. *)
Theorem history_isolated (json_loads : string -> outcome json)
    (calls : list chat_call) (store : gmap string (list message)) (user : string) :
  serve_all json_loads store calls !! user
  = serve_all json_loads store (calls_of user calls) !! user.
Proof.
  assert (forall store1 store2,
             store1 !! user = store2 !! user ->
             serve_all json_loads store1 calls !! user
             = serve_all json_loads store2 (calls_of user calls) !! user) as H;
    [|apply H; reflexivity].
  induction calls as [|c calls IH]; intros store1 store2 H; [exact H|].
  rewrite serve_all_cons. simpl.
  destruct (String.eqb_spec (user_id (call_request c)) user) as [Hu|Hu].
  - rewrite serve_all_cons. apply IH, serve_local, H.
  - apply IH. rewrite serve_other by exact Hu. exact H.
Qed.

(** X16: when the provider is down for both calls, the user is still
    answered, with the composer's error reply, and the failed exchange is
    stored as a turn like any other. *)
Theorem outage_answered_and_stored (json_loads : string -> outcome json)
    (e : exn) (store : gmap string (list message)) (request : ChatRequest) :
  query request <> EmptyString ->
  handle_chat json_loads (failing_provider e) store request
  = (<[user_id request :=
         Str.last_n HISTORY_LIMIT
           (default [] (store !! user_id request)
            ++ [ Message "user" (query request);
                 Message "assistant"
                   ("An unexpected server error occurred while formatting the response: "
                    +:+ exn_str e) ])]> store,
     Answer {| response_reply :=
                 "An unexpected server error occurred while formatting the response: "
                 +:+ exn_str e;
               response_ui_data :=
                 {| component_type := "generic_text";
                    data := JDict [("error"%string, JStr (exn_str e))] |} |}).
Proof.
  intros Hq.
  destruct (handle_chat_accepted json_loads (failing_provider e) store request)
    as (r & Hr & Hh).
  { destruct (query request); [contradiction | reflexivity]. }
  unfold process_user_query in Hr.
  rewrite (gather_raised (failing_provider e) _ _ e eq_refl) in Hr. simpl in Hr.
  rewrite (generate_raised json_loads (failing_provider e) _ _ _ e eq_refl) in Hr.
  injection Hr as <-. rewrite Hh. reflexivity.
Qed.

Lemma outage_answered_and_stored_witness :
  handle_chat sample_loads (failing_provider connection_error) ∅
    {| user_id := "ann"; query := "who leads the league?" |}
  = (<["ann" :=
         Str.last_n HISTORY_LIMIT
           (default [] ((∅ : gmap string (list message)) !! "ann")
            ++ [ Message "user" "who leads the league?";
                 Message "assistant"
                   ("An unexpected server error occurred while formatting the response: "
                    +:+ exn_str connection_error) ])]> ∅,
     Answer {| response_reply :=
                 "An unexpected server error occurred while formatting the response: "
                 +:+ exn_str connection_error;
               response_ui_data :=
                 {| component_type := "generic_text";
                    data := JDict [("error"%string, JStr (exn_str connection_error))] |} |}).
Proof.
  apply (outage_answered_and_stored sample_loads connection_error ∅
           {| user_id := "ann"; query := "who leads the league?" |}).
  discriminate.
Defined.

Lemma serve_entries (json_loads : string -> outcome json)
    (store : gmap string (list message)) (c : chat_call) :
  length (default [] (store !! user_id (call_request c))) <= HISTORY_LIMIT ->
  default [] (serve json_loads store c !! user_id (call_request c))
  = Str.last_n HISTORY_LIMIT
      (default [] (store !! user_id (call_request c)) ++ stored_entries json_loads store c).
Proof.
  intros Hlen. unfold serve, handle_chat, stored_entries.
  destruct (Str.nonempty (query (call_request c))); simpl.
  - destruct (process_user_query _ _ _ _) as [r|e]; simpl.
    + rewrite lookup_insert_eq. simpl.
      destruct (Str.nonempty (reply r)); [rewrite <- app_assoc|]; reflexivity.
    + rewrite app_nil_r, StrFacts.last_n_short; auto.
  - rewrite app_nil_r, StrFacts.last_n_short; auto.
Qed.

(** X18: whatever the outcomes of the calls, the history stored for a user is
    the tail of all the entries that user's calls appended, in the order
    served: the oldest entries are the ones dropped, and nothing is
    reordered. *)
Theorem history_tail_of_entries (json_loads : string -> outcome json)
    (calls : list chat_call) (user : string) :
  default [] (serve_all json_loads ∅ calls !! user)
  = Str.last_n HISTORY_LIMIT (entries_of json_loads user ∅ calls).
Proof.
  assert (forall store,
             length (default [] (store !! user)) <= HISTORY_LIMIT ->
             default [] (serve_all json_loads store calls !! user)
             = Str.last_n HISTORY_LIMIT
                 (default [] (store !! user) ++ entries_of json_loads user store calls)) as H.
  { induction calls as [|c calls IH]; intros store Hlen.
    - simpl. rewrite app_nil_r, StrFacts.last_n_short; auto.
    - rewrite serve_all_cons. simpl entries_of.
      destruct (String.eqb_spec (user_id (call_request c)) user) as [Hu|Hu].
      + pose proof (serve_entries json_loads store c) as Hs. rewrite Hu in Hs.
        rewrite IH, Hs by (try apply serve_cap; exact Hlen).
        rewrite StrFacts.last_n_app, <- app_assoc. reflexivity.
      + rewrite IH; rewrite (serve_other _ _ _ _ Hu); [reflexivity | exact Hlen]. }
  rewrite H; rewrite lookup_empty; simpl; [reflexivity | lia].
Qed.

Example entries_after_empty_reply :
  entries_of sample_loads "ann" ∅
    [ ChatCall greeter {| user_id := "ann"; query := EmptyString |};
      ChatCall (sample_provider (Returned (text_response "Arsenal lead the league."))
                                (Returned (text_response "[](http://x)")))
               {| user_id := "ann"; query := "who leads the league?" |};
      ChatCall greeter {| user_id := "ann"; query := "hello" |} ]
  = [ Message "user" "who leads the league?";
      Message "user" "hello"; Message "assistant" "Hello! I am GameNerd." ].
Proof. vm_compute. reflexivity. Qed.

(** ** The registry *)

(** X17: the tools offered to the model and the keys of the component-type
    table are the same names; no tool is mapped to the generic fallback, and
    no two tools share a component type. *)
Theorem registry_consistent :
  map tool_name TOOLS_AVAILABLE = map fst component_types
  /\ (forall t, In t TOOLS_AVAILABLE ->
        exists ct, TOOL_NAME_TO_COMPONENT_TYPE !! tool_name t = Some ct
                   /\ ct <> GENERIC_TEXT)
  /\ (forall t1 t2, In t1 TOOLS_AVAILABLE -> In t2 TOOLS_AVAILABLE ->
        TOOL_NAME_TO_COMPONENT_TYPE !! tool_name t1
        = TOOL_NAME_TO_COMPONENT_TYPE !! tool_name t2 ->
        t1 = t2).
Proof.
  split; [reflexivity|]. split.
  - intros t Ht. simpl in Ht.
    repeat (destruct Ht as [<-|Ht]; [eexists; split; [vm_compute; reflexivity | discriminate]|]).
    contradiction.
  - intros t1 t2 H1 H2. simpl in H1, H2.
    repeat (destruct H1 as [<-|H1]);
      repeat (destruct H2 as [<-|H2]);
      try contradiction; vm_compute; intros H; try reflexivity; discriminate.
Qed.

(** ** The functions with their log lines *)

Section LoggedFacts.

Variable print : string -> outcome unit.
Variable print_exc : exn -> outcome unit.
Variable json_loads : string -> outcome json.

(** While the log stream accepts every line, the log lines change nothing. *)
Hypothesis print_writes : forall text, print text = Returned tt.
Hypothesis print_exc_writes : forall e, print_exc e = Returned tt.

Lemma logged_gather create q h :
  Logged.gather_real_time_data print print_exc create q h
  = gather_real_time_data create q h.
Proof.
  unfold Logged.gather_real_time_data, gather_real_time_data, try_except,
    mbind, outcome_bind, mret, outcome_ret.
  rewrite print_writes.
  destruct (create (gather_request q h)) as [response|e];
    [|rewrite print_writes, print_exc_writes; reflexivity].
  destruct (choices response) as [|first others]; simpl;
    [rewrite print_writes, print_exc_writes; reflexivity|].
  destruct (msg_content (choice_message first)); simpl;
    rewrite print_writes, ?print_exc_writes; reflexivity.
Qed.

Lemma logged_generate create q h g :
  Logged.generate_final_response_with_tools print print_exc json_loads create q h g
  = generate_final_response_with_tools json_loads create q h g.
Proof.
  unfold Logged.generate_final_response_with_tools, generate_final_response_with_tools.
  unfold mbind at 1 2. unfold outcome_bind. rewrite !print_writes. f_equal.
  unfold try_prog, Logged.compose, compose, Logged.on_error, on_error,
    final_response, set_reply, set_ui_data, set_data_item, when, lift,
    mbind, prog_bind, mret, prog_ret.
  destruct (create (final_request q h g)) as [response|e];
    [|rewrite print_writes, print_exc_writes; reflexivity].
  destruct (first_item (choices response)) as [first|e];
    [|rewrite print_writes, print_exc_writes; reflexivity].
  destruct (has_content (msg_content (choice_message first)));
    destruct (called_tools (msg_tool_calls (choice_message first))) as [|call rest];
    simpl; rewrite ?print_writes; try reflexivity;
    destruct (json_loads (fn_arguments (tc_function call))) as [args|e];
    simpl; rewrite ?print_writes, ?print_exc_writes; reflexivity.
Qed.

Lemma logged_process create q h :
  Logged.process_user_query print print_exc json_loads create q h
  = process_user_query json_loads create q h.
Proof.
  unfold Logged.process_user_query, process_user_query. rewrite logged_gather.
  destruct (gather_real_time_data create q h) as [[text|]|e]; simpl;
    [apply logged_generate | rewrite print_writes; reflexivity | reflexivity].
Qed.

Lemma logged_handle_chat create store request :
  Logged.handle_chat print print_exc json_loads create store request
  = (fst (handle_chat json_loads create store request),
     Returned (snd (handle_chat json_loads create store request))).
Proof.
  unfold Logged.handle_chat, handle_chat, Logged.chat_error. rewrite print_writes.
  destruct (negb (Str.nonempty (query request))); [reflexivity|].
  rewrite logged_process.
  destruct (process_user_query _ _ _ _) as [r|e]; simpl.
  - rewrite print_writes. reflexivity.
  - unfold mbind, outcome_bind. rewrite print_writes, print_exc_writes. reflexivity.
Qed.

End LoggedFacts.

(** A log line outside a [try] lets its exception escape. *)
Lemma gather_first_log_line print print_exc create q h e :
  print ("--- Step 1: GATHERING real-time data for query: '"
         +:+ Logged.prefix 60 q +:+ "...' ---") = Raised e ->
  Logged.gather_real_time_data print print_exc create q h = Raised e.
Proof.
  intros H. unfold Logged.gather_real_time_data, mbind, outcome_bind.
  rewrite H. reflexivity.
Qed.

(** C7: the code does not do what the claim says.  The first log line of the
    gatherer quotes the query and stands before the [try]: when the log
    stream cannot encode the query, [print] raises and the gatherer raises
    with it instead of returning a string. *)
Theorem gatherer_log_line_escapes :
  Logged.gather_real_time_data ascii_print quiet_print_exc greeter accented_query []
  = Raised (Exn "UnicodeEncodeError"
              "'ascii' codec can't encode character: ordinal not in range(128)").
Proof. vm_compute. reflexivity. Qed.

(** The log line inside the [try] is caught like a provider failure. *)
Example gatherer_log_line_caught :
  Logged.gather_real_time_data ascii_print quiet_print_exc
    (fun _ => Returned (text_response accented_query)) "who scored?" []
  = Returned (Some "Error: Could not gather information due to an internal error: 'ascii' codec can't encode character: ordinal not in range(128)"%string).
Proof. vm_compute. reflexivity. Qed.

(** The first log line of the endpoint comes before the check of the query. *)
Example endpoint_log_line_escapes :
  Logged.handle_chat ascii_print quiet_print_exc sample_loads greeter ∅
    {| user_id := "ann"; query := accented_query |}
  = (∅, Raised (Exn "UnicodeEncodeError"
                  "'ascii' codec can't encode character: ordinal not in range(128)")).
Proof. vm_compute. reflexivity. Qed.

(** X8: while the log stream accepts every line, the orchestrator returns a
    result whatever the provider and the decoder do, it does not raise, and
    the component type of the result is one of the six the user interface
    knows: the generic one or one of the registry's. *)
Theorem orchestrator_returns_known_component
    (print : string -> outcome unit) (print_exc : exn -> outcome unit)
    (json_loads : string -> outcome json)
    (create : provider) (q : string) (h : list message) :
  (forall text, print text = Returned tt) ->
  (forall e, print_exc e = Returned tt) ->
  exists r,
    Logged.process_user_query print print_exc json_loads create q h = Returned r
    /\ In (component_type (ui_data r))
         [ "generic_text"; "h2h_comparison_table"; "standings_table";
           "match_schedule_table"; "player_profile_card"; "news_article_list" ]%string.
Proof.
  intros Hp He. rewrite (logged_process print print_exc json_loads Hp He).
  apply process_user_query_known.
Qed.

Lemma orchestrator_returns_known_component_witness :
  exists r,
    Logged.process_user_query quiet_print quiet_print_exc sample_loads
      (sample_provider (Raised connection_error)
         (Returned (tool_response None [ToolCall (FunctionCall "get_team_news" "not json")])))
      accented_query [] = Returned r
    /\ In (component_type (ui_data r))
         [ "generic_text"; "h2h_comparison_table"; "standings_table";
           "match_schedule_table"; "player_profile_card"; "news_article_list" ]%string.
Proof.
  apply (orchestrator_returns_known_component quiet_print quiet_print_exc sample_loads);
    reflexivity.
Defined.

(** X11: while the log stream accepts every line, a query that is not empty
    is always answered with the reply and the payload of the orchestrator:
    no exception escapes the endpoint, and the endpoint's own fallback
    answer, the "critical server error", does not occur. *)
Theorem accepted_query_answered
    (print : string -> outcome unit) (print_exc : exn -> outcome unit)
    (json_loads : string -> outcome json) (create : provider)
    (store : gmap string (list message)) (request : ChatRequest) :
  (forall text, print text = Returned tt) ->
  (forall e, print_exc e = Returned tt) ->
  query request <> EmptyString ->
  exists r,
    Logged.process_user_query print print_exc json_loads create (query request)
      (default [] (store !! user_id request)) = Returned r
    /\ snd (Logged.handle_chat print print_exc json_loads create store request)
       = Returned (Answer {| response_reply := reply r; response_ui_data := ui_data r |}).
Proof.
  intros Hp He Hq.
  rewrite (logged_process print print_exc json_loads Hp He),
    (logged_handle_chat print print_exc json_loads Hp He).
  destruct (handle_chat_accepted json_loads create store request) as (r & Hr & Hh).
  { destruct (query request); [contradiction | reflexivity]. }
  exists r. rewrite Hh. auto.
Qed.

Lemma accepted_query_answered_witness :
  exists r,
    Logged.process_user_query quiet_print quiet_print_exc sample_loads greeter
      accented_query (default [] ((∅ : gmap string (list message)) !! "ann")) = Returned r
    /\ snd (Logged.handle_chat quiet_print quiet_print_exc sample_loads greeter ∅
              {| user_id := "ann"; query := accented_query |})
       = Returned (Answer {| response_reply := reply r; response_ui_data := ui_data r |}).
Proof.
  apply (accepted_query_answered quiet_print quiet_print_exc sample_loads greeter ∅
           {| user_id := "ann"; query := accented_query |});
    [reflexivity | reflexivity | discriminate].
Defined.
